(** * Timesheet report generator (main.py): model and verification

    The development embeds the four functions of [main.py]
    ([form_records], [read_and_validate_file], [generate_payout_report],
    [generate_mean_rate_report]) and the body of [main] in Gallina.

    Conventions of the model:
    - a Python [str] is a [string]; one [ascii] stands for one character
      (a code point below 256), so [len] is [String.length];
    - a Python [float] is an IEEE-754 binary64 value, represented by the
      axiom-free [spec_float] of the standard library with [prec = 53] and
      [emax = 1024]; NaN, the infinities and signed zeros are all present;
      [float(s)], [int(x)], [str(x)] and the formats [.0f] and [.2f] are
      computed exactly on it;
    - [print] appends to an explicit standard-output stream, exceptions are
      the left summand of the result of a computation;
    - what the source leaves to the interpreter is a parameter: the file
      system, the order in which the set [RATE_COLUMNS] is iterated, and
      the builtin [sum], whose rounding changed with CPython 3.12. *)

From Stdlib Require Import ZArith List Bool Ascii String Lia.
From Stdlib Require Import Floats.SpecFloat.
From stdpp Require Import base option list strings gmap.

Local Open Scope string_scope.
Local Open Scope list_scope.
Local Open Scope Z_scope.

(** ** Python string builtins *)

Module PyStr.

(** [str.isspace] on one character, for code points below 256:
    TAB..CR, FS..US, SPACE, NEL (0x85) and NBSP (0xA0). *)
Definition isspace (c : ascii) : bool :=
  let n := N_of_ascii c in
  ((9 <=? n) && (n <=? 13) || (28 <=? n) && (n <=? 32)
   || (n =? 133) || (n =? 160))%N.

(** Removal of the leading (trailing) characters that satisfy [p]. *)
Fixpoint lstrip_by (p : ascii -> bool) (s : string) : string :=
  match s with
  | String c s' => if p c then lstrip_by p s' else s
  | EmptyString => EmptyString
  end.

Definition rstrip_by (p : ascii -> bool) (s : string) : string :=
  String.rev (lstrip_by p (String.rev s)).

Definition strip_by (p : ascii -> bool) (s : string) : string :=
  rstrip_by p (lstrip_by p s).

(** [s.strip()] without argument. *)
Definition strip (s : string) : string := strip_by isspace s.

(** [s.split(sep)] with an explicit one-character separator: every
    occurrence separates, empty fields are kept, the result is never
    empty ([''.split(',') == ['']]). *)
Fixpoint split (sep : ascii) (s : string) : list string :=
  match s with
  | EmptyString => [EmptyString]
  | String c s' =>
      if Ascii.eqb c sep then EmptyString :: split sep s'
      else match split sep s' with
           | f :: fs => String c f :: fs
           | [] => [String c EmptyString]
           end
  end.

(** [c * n] for a one-character string [c]. *)
Fixpoint replicate_char (n : nat) (c : ascii) : string :=
  match n with
  | O => EmptyString
  | S n' => String c (replicate_char n' c)
  end.

(** [f"{s:<{w}}"]: left-aligned in a field of minimum width [w], padded
    on the right with spaces, never truncated. *)
Definition ljust (w : nat) (s : string) : string :=
  s +:+ replicate_char (w - String.length s) " ".

(** Decimal digits of a natural number, most significant first;
    [fuel] bounds the number of digits produced. *)
Definition digit_char (d : N) : ascii := ascii_of_N (48 + d).

Fixpoint digits_go (fuel : nat) (n : N) (acc : string) : string :=
  match fuel with
  | O => acc
  | S fuel' =>
      let acc' := String (digit_char (n mod 10)%N) acc in
      if (n <? 10)%N then acc' else digits_go fuel' (n / 10)%N acc'
  end.

Definition str_of_N (n : N) : string :=
  digits_go (S (N.to_nat (N.log2 n))) n EmptyString.

(** [str(i)] for a Python [int]. *)
Definition str_of_Z (z : Z) : string :=
  match z with
  | Zneg p => String "-" (str_of_N (Npos p))
  | _ => str_of_N (Z.to_N z)
  end.

(** [s.lower()] restricted to ASCII letters. *)
Definition lower_char (c : ascii) : ascii :=
  let n := N_of_ascii c in
  if ((65 <=? n) && (n <=? 90))%N then ascii_of_N (n + 32) else c.

Fixpoint lower (s : string) : string :=
  match s with
  | EmptyString => EmptyString
  | String c s' => String (lower_char c) (lower s')
  end.

Definition is_digit (c : ascii) : bool :=
  let n := N_of_ascii c in ((48 <=? n) && (n <=? 57))%N.

End PyStr.


(** ** Python exceptions raised by the program *)

Inductive value_error :=
| MissingRequiredColumn (col filepath : string)
    (** raised by [read_and_validate_file] for an absent required column *)
| MissingRateColumn (filepath : string)
    (** raised by [read_and_validate_file] when no rate column is found *)
| FloatOfString (s : string)
    (** [float(s)]: could not convert string to float *)
| IntOfNaN.
    (** [int(x)]: cannot convert float NaN to integer *)

Inductive exn :=
| FileNotFoundError (filepath : string)
| ValueError (v : value_error)
| KeyError (key : string)
| OverflowError            (** [int(x)] on an infinity *)
| TypeError                (** [max] of a single integer *)
| SystemExit (code : Z).

(** [except Exception] catches every exception of the model but
    [SystemExit], which derives from [BaseException] only. *)
Definition is_Exception (e : exn) : bool :=
  match e with SystemExit _ => false | _ => true end.

(** ** Python floats: binary64 *)

Module PyFloat.

Definition float : Type := spec_float.

Definition prec : Z := 53.
Definition emax : Z := 1024.

Definition mul : float -> float -> float := SFmul prec emax.
Definition add : float -> float -> float := SFadd prec emax.
Definition sub : float -> float -> float := SFsub prec emax.
Definition div : float -> float -> float := SFdiv prec emax.
Definition abs : float -> float := SFabs.
Definition ltb : float -> float -> bool := SFltb.
Definition leb : float -> float -> bool := SFleb.
Definition eqb : float -> float -> bool := SFeqb.

Definition zero : float := S754_zero false.
Definition nan : float := S754_nan.
Definition inf : float := S754_infinity false.

(** Conversion of a Python [int] operand in mixed arithmetic
    ([x / len(l)], [0 + x]): nearest binary64, ties to even. *)
Definition of_Z (z : Z) : float := binary_normalize prec emax z 0 false.

Definition is_finite (x : float) : bool :=
  match x with
  | S754_zero _ | S754_finite _ _ _ => true
  | _ => false
  end.

(** *** [float(s)] *)

(** Whitespace that [float] strips around the literal: the ASCII
    whitespace of the C locale, and the non-ASCII Unicode spaces (NEL and
    NBSP below 256), which CPython rewrites to a blank first. *)
Definition float_isspace (c : ascii) : bool :=
  let n := N_of_ascii c in
  ((9 <=? n) && (n <=? 13) || (n =? 32) || (n =? 133) || (n =? 160))%N.

(** Underscores are accepted only between two digits and are dropped. *)
Fixpoint remove_underscores (prev : ascii) (s : string) : option string :=
  match s with
  | EmptyString => if Ascii.eqb prev "_" then None else Some EmptyString
  | String c s' =>
      if Ascii.eqb c "_" then
        if PyStr.is_digit prev then remove_underscores c s' else None
      else if Ascii.eqb prev "_" && negb (PyStr.is_digit c) then None
      else String c <$> remove_underscores c s'
  end.

Fixpoint span_digits (s : string) : string * string :=
  match s with
  | String c s' =>
      if PyStr.is_digit c then
        let '(ds, r) := span_digits s' in (String c ds, r)
      else (EmptyString, s)
  | EmptyString => (EmptyString, EmptyString)
  end.

Definition parse_sign (s : string) : bool * string :=
  match s with
  | String "-" r => (true, r)
  | String "+" r => (false, r)
  | _ => (false, s)
  end.

Fixpoint Z_of_digits (acc : Z) (s : string) : Z :=
  match s with
  | EmptyString => acc
  | String c s' => Z_of_digits (10 * acc + (Z.of_N (N_of_ascii c) - 48)) s'
  end.

(** [digits [. digits] [(e|E) [sign] digits]] with at least one digit
    before the exponent: the integer [M] of all mantissa digits and the
    decimal exponent [E] such that the literal denotes [M * 10^E]. *)
Definition parse_decimal (s : string) : option (Z * Z) :=
  let '(ip, r1) := span_digits s in
  let '(fp, r2) :=
    match r1 with
    | String "." r => span_digits r
    | _ => (EmptyString, r1)
    end in
  if decide (ip +:+ fp = EmptyString) then None
  else
    let M := Z_of_digits 0 (ip +:+ fp) in
    let shift := Z.of_nat (String.length fp) in
    match r2 with
    | EmptyString => Some (M, - shift)
    | String c r3 =>
        if Ascii.eqb c "e" || Ascii.eqb c "E" then
          let '(es, r4) := parse_sign r3 in
          let '(ed, r5) := span_digits r4 in
          if decide (ed = EmptyString) then None
          else if decide (r5 = EmptyString) then
            let ev := Z_of_digits 0 ed in
            Some (M, (if es then - ev else ev) - shift)
          else None
        else None
    end.

(** The binary64 nearest to [M * 10^E] (ties to even, overflow to an
    infinity, underflow to a signed zero): one correctly rounded
    division of two exact integers. *)
Definition of_decimal (sign : bool) (M E : Z) : float :=
  match M with
  | Zpos _ =>
      let num := M * 10 ^ Z.max E 0 in
      let den := 10 ^ Z.max (- E) 0 in
      SFdiv prec emax (S754_finite sign (Z.to_pos num) 0)
                      (S754_finite false (Z.to_pos den) 0)
  | _ => S754_zero sign
  end.

Definition py_float (s : string) : exn + float :=
  match remove_underscores "000" (PyStr.strip_by float_isspace s) with
  | None => inl (ValueError (FloatOfString s))
  | Some t =>
      let '(sign, body) := parse_sign t in
      let low := PyStr.lower body in
      if decide (low = "inf" \/ low = "infinity") then inr (S754_infinity sign)
      else if decide (low = "nan") then inr S754_nan
      else match parse_decimal body with
           | Some (M, E) => inr (of_decimal sign M E)
           | None => inl (ValueError (FloatOfString s))
           end
  end.

(** *** [int(x)]: truncation toward zero *)

Definition to_int (x : float) : exn + Z :=
  match x with
  | S754_zero _ => inr 0
  | S754_finite s m e =>
      let a := if 0 <=? e then Zpos m * 2 ^ e else Zpos m / 2 ^ (- e) in
      inr (if s then - a else a)
  | S754_nan => inl (ValueError IntOfNaN)
  | S754_infinity _ => inl OverflowError
  end.

(** *** [f"{x:.{n}f}"]: fixed notation with [n] fractional digits *)

(** [num / den] rounded to the nearest integer, ties to even. *)
Definition round_half_even_div (num den : Z) : Z :=
  let q := num / den in
  match 2 * (num mod den) ?= den with
  | Lt => q
  | Gt => q + 1
  | Eq => if Z.even q then q else q + 1
  end.

(** The exact value [m * 2^e * 10^n] rounded to an integer. *)
Definition scaled_round (n : nat) (m : positive) (e : Z) : Z :=
  if 0 <=? e then Zpos m * 2 ^ e * 10 ^ Z.of_nat n
  else round_half_even_div (Zpos m * 10 ^ Z.of_nat n) (2 ^ (- e)).

(** The [n] low decimal digits of [v], most significant first. *)
Fixpoint frac_digits (n : nat) (v : Z) (acc : string) : string :=
  match n with
  | O => acc
  | S n' =>
      frac_digits n' (v / 10)
                  (String (PyStr.digit_char (Z.to_N (v mod 10))) acc)
  end.

(** [q] is the value scaled by [10^n]: integer part, then a point and
    [n] digits when [n] is not zero. *)
Definition fixed_digits (n : nat) (q : Z) : string :=
  let p := 10 ^ Z.of_nat n in
  PyStr.str_of_Z (q / p)
  +:+ match n with
     | O => EmptyString
     | S _ => String "." (frac_digits n (q mod p) EmptyString)
     end.

Definition sign_str (s : bool) : string := if s then "-" else EmptyString.

Definition format_f (n : nat) (x : float) : string :=
  match x with
  | S754_nan => "nan"
  | S754_infinity s => sign_str s +:+ "inf"
  | S754_zero s => sign_str s +:+ fixed_digits n 0
  | S754_finite s m e => sign_str s +:+ fixed_digits n (scaled_round n m e)
  end.

(** *** [str(x)], [repr(x)] and [f"{x}"]: shortest round-trip digits *)

(** Comparison of [V * 2^e2] with [D * 10^t] for non-negative [V], [D]. *)
Definition cmp_bin_dec (V e2 D t : Z) : comparison :=
  (V * 2 ^ Z.max e2 0 * 10 ^ Z.max (- t) 0
   ?= D * 10 ^ Z.max t 0 * 2 ^ Z.max (- e2) 0).

(** Number of decimal digits of the integer part of [m * 2^e]: the
    least [k] with [m * 2^e < 10^k] (it may be zero or negative). *)
Definition decimal_exponent (m : positive) (e : Z) : Z :=
  let est := ((Z.log2 (Zpos m) + e) * 1233) / 4096 in
  match cmp_bin_dec (Zpos m) e 1 est with
  | Lt => est
  | _ => match cmp_bin_dec (Zpos m) e 1 (est + 1) with
         | Lt => est + 1
         | _ => est + 2
         end
  end.

(** The [n]-digit candidates around [x = m * 2^e], in units of [10^t]
    with [t = k - n]: the one that reads back as [x] and is nearest to
    [x] (the even one on a tie), if there is one. The interval of the
    decimals that read back as [x] is bounded by the midpoints to the
    neighbouring floats, which belong to it when [m] is even. *)
Definition shortest_candidate (m : positive) (e : Z) (t : Z) : option Z :=
  let e2 := e - 2 in
  let X := 4 * Zpos m in
  let LO := if (Zpos m =? 2 ^ 52) && (-1074 <? e) then X - 1 else X - 2 in
  let HI := X + 2 in
  let D_lo := (X * 2 ^ Z.max e2 0 * 10 ^ Z.max (- t) 0)
              / (10 ^ Z.max t 0 * 2 ^ Z.max (- e2) 0) in
  let D_hi := D_lo + 1 in
  let inside D :=
    match cmp_bin_dec LO e2 D t, cmp_bin_dec HI e2 D t with
    | Lt, Gt => true
    | Eq, Gt | Lt, Eq => Z.even (Zpos m)
    | _, _ => false
    end in
  match inside D_lo, inside D_hi with
  | true, true =>
      match cmp_bin_dec (2 * X) e2 (2 * D_lo + 1) t with
      | Lt => Some D_lo
      | Gt => Some D_hi
      | Eq => Some (if Z.even D_lo then D_lo else D_hi)
      end
  | true, false => Some D_lo
  | false, true => Some D_hi
  | false, false => None
  end.

(** Search for the least number of digits, [17 - fuel + 1] first. *)
Fixpoint shortest_go (fuel : nat) (m : positive) (e : Z) (t : Z) : Z * Z :=
  match fuel with
  | O => (0, t)
  | S fuel' =>
      match shortest_candidate m e t with
      | Some D => (D, t)
      | None => shortest_go fuel' m e (t - 1)
      end
  end.

Fixpoint strip_trailing_zeros (fuel : nat) (D t : Z) : Z * Z :=
  match fuel with
  | O => (D, t)
  | S fuel' =>
      if (D mod 10 =? 0) && (0 <? D) then strip_trailing_zeros fuel' (D / 10) (t + 1)
      else (D, t)
  end.

(** The digit string and the position [decpt] of the decimal point:
    the value is [0.d1d2...dn * 10^decpt]. *)
Definition shortest_digits (m : positive) (e : Z) : string * Z :=
  let k := decimal_exponent m e in
  let '(D0, t0) := shortest_go 17 m e (k - 1) in
  let '(D, t) := strip_trailing_zeros 18 D0 t0 in
  let ds := PyStr.str_of_Z D in
  (ds, t + Z.of_nat (String.length ds)).

Definition zeros (n : Z) : string := PyStr.replicate_char (Z.to_nat n) "0".

Definition repr_abs (m : positive) (e : Z) : string :=
  let '(ds, decpt) := shortest_digits m e in
  let nd := Z.of_nat (String.length ds) in
  if (decpt <=? -4) || (16 <? decpt) then
    let ex := decpt - 1 in
    let exs := PyStr.str_of_Z (Z.abs ex) in
    substring 0 1 ds
    +:+ (if 1 <? nd then String "." (substring 1 (String.length ds - 1) ds)
        else EmptyString)
    +:+ "e" +:+ (if ex <? 0 then "-" else "+")
    +:+ (if Z.abs ex <? 10 then String "0" exs else exs)
  else if decpt <=? 0 then
    "0." +:+ zeros (- decpt) +:+ ds
  else if nd <=? decpt then
    ds +:+ zeros (decpt - nd) +:+ ".0"
  else
    substring 0 (Z.to_nat decpt) ds
    +:+ String "." (substring (Z.to_nat decpt) (String.length ds - Z.to_nat decpt) ds).

Definition repr (x : float) : string :=
  match x with
  | S754_nan => "nan"
  | S754_infinity s => sign_str s +:+ "inf"
  | S754_zero s => sign_str s +:+ "0.0"
  | S754_finite s m e => sign_str s +:+ repr_abs m e
  end.

End PyFloat.

(** ** Output streams and the monad of effects *)

(** What the program writes to standard output. The two diagnostics of
    the loader are kept structured (the source prints a fixed sentence
    around the line number, and around the line number and the path);
    [Text s] is one call [print(s)]. *)
Inductive stdout_item :=
| DiagBadRow (line_number : nat)
    (** [form_records]: row [line_number] holds incorrect data, skipped *)
| DiagColumnMismatch (line_number : nat) (filepath : string)
    (** [read_and_validate_file]: line skipped, column count differs *)
| Text (s : string).

(** What the program writes to standard error. *)
Inductive stderr_item :=
| FileError (filepath : string) (e : exn)
    (** [main]: error [e] while processing [filepath] *)
| ReportNotImplemented.
    (** [main]: the report type is not implemented *)

Record world := mkWorld {
  stdout : list stdout_item;
  stderr : list stderr_item
}.

Definition empty_world : world := mkWorld [] [].

(** A computation transforms the streams and either raises or returns. *)
Definition M (A : Type) : Type := world -> world * (exn + A).

Global Instance M_ret : MRet M := fun A (a : A) w => (w, inr a).

Global Instance M_bind : MBind M := fun A B (k : A -> M B) (c : M A) w =>
  match c w with
  | (w', inr a) => k a w'
  | (w', inl e) => (w', inl e)
  end.

Global Instance M_fmap : FMap M := fun A B (f : A -> B) (c : M A) w =>
  match c w with
  | (w', inr a) => (w', inr (f a))
  | (w', inl e) => (w', inl e)
  end.

Definition raise {A} (e : exn) : M A := fun w => (w, inl e).

Definition lift {A} (r : exn + A) : M A := fun w => (w, r).

Definition print (x : stdout_item) : M unit := fun w =>
  (mkWorld (stdout w ++ [x]) (stderr w), inr tt).

Definition eprint (x : stderr_item) : M unit := fun w =>
  (mkWorld (stdout w) (stderr w ++ [x]), inr tt).

(** [try: body except ...: handler]: [handler e] is [None] when the
    [except] clause does not match [e], which then propagates. *)
Definition try_except {A} (body : M A) (handler : exn -> option (M A)) : M A :=
  fun w =>
    match body w with
    | (w', inl e) =>
        match handler e with
        | Some h => h w'
        | None => (w', inl e)
        end
    | r => r
    end.

(** [for x in xs: body(x)] *)
Fixpoint for_each {A} (body : A -> M unit) (xs : list A) : M unit :=
  match xs with
  | [] => mret tt
  | x :: xs' => body x ;; for_each body xs'
  end.

(** A [for] loop that updates a local variable [s]. *)
Fixpoint for_fold {A S} (body : S -> A -> M S) (s : S) (xs : list A) : M S :=
  match xs with
  | [] => mret s
  | x :: xs' => s' ← body s x; for_fold body s' xs'
  end.

(** [enumerate(xs, start)] *)
Fixpoint enumerate {A} (start : nat) (xs : list A) : list (nat * A) :=
  match xs with
  | [] => []
  | x :: xs' => (start, x) :: enumerate (S start) xs'
  end.

(** ** Data model *)

(** Constants of the module. [RATE_COLUMNS] is a Python [set]: the
    source fixes its elements only; the order in which the set is iterated
    is a parameter of [read_and_validate_file] below. *)
Definition REQUIRED_COLUMNS : list string :=
  ["id"; "email"; "name"; "department"; "hours_worked"].
Definition RATE_COLUMNS : list string := ["hourly_rate"; "rate"; "salary"].
Definition CSV_SEPARATOR : ascii := ",".

(** A raw row is the [dict] from column name to field built by
    [dict(zip(keys, values))]: a later pair overrides an earlier one. *)
Definition dict_of_zip (keys values : list string) : gmap string string :=
  foldl (fun m kv => <[kv.1 := kv.2]> m) ∅ (zip keys values).

(** A validated record, the dict built by [form_records]. *)
Record rec := mkRec {
  name : string;
  department : string;
  hours : PyFloat.float;
  rate : PyFloat.float;
  payout : PyFloat.float
}.

(** [parts[key]] *)
Definition getitem (parts : gmap string string) (key : string) : M string :=
  match parts !! key with
  | Some v => mret v
  | None => raise (KeyError key)
  end.

(** [float(s)] *)
Definition float_of (s : string) : M PyFloat.float := lift (PyFloat.py_float s).

(** ** Record loader *)

(** The body of the loop of [form_records]; the [option] is [None] after
    [continue] in the [except] clause. The lists [hours_list] and
    [payouts] of the source feed a computation whose result is discarded
    and which cannot raise; they are left out. *)
Definition form_records_step (rate_column : string) (records : list rec)
    (item : nat * gmap string string) : M (list rec) :=
  let '(line_number, parts) := item in
  parsed ← try_except
    (name ← PyStr.strip <$> getitem parts "name";
     department ← PyStr.strip <$> getitem parts "department";
     hours ← getitem parts "hours_worked" ≫= float_of;
     rate ← getitem parts rate_column ≫= float_of;
     mret (Some (name, department, hours, rate)))
    (fun e =>
       match e with
       | ValueError _ | KeyError _ =>
           Some (print (DiagBadRow line_number) ;; mret None)
       | _ => None
       end);
  match parsed with
  | None => mret records
  | Some (name, department, hours, rate) =>
      if bool_decide (name = "") || bool_decide (department = "")
         || PyFloat.ltb hours PyFloat.zero || PyFloat.ltb rate PyFloat.zero
      then mret records
      else
        let payout := PyFloat.mul hours rate in
        mret (records ++ [mkRec name department hours rate payout])
  end.

Definition form_records (rows : list (gmap string string)) (rate_column : string)
    : M (list rec) :=
  for_fold (form_records_step rate_column) [] (enumerate 2 rows).

(** The file system: the lines of each existing file, as [readlines]
    returns them (each with its line terminator, if any). Paths denote
    readable text files or nothing. *)
Definition filesystem : Type := gmap string (list string).

(** [next((col for col in valid_rate_keys if col in header), None)],
    [valid_rate_keys] being listed in iteration order. *)
Definition select_rate_column (valid_rate_keys header : list string) : option string :=
  head (filter (fun col => col ∈ header) valid_rate_keys).

Definition mapped_rows_step (filepath : string) (header : list string)
    (mapped_rows : list (gmap string string)) (item : nat * string)
    : M (list (gmap string string)) :=
  let '(line_number, line) := item in
  let parts := PyStr.split CSV_SEPARATOR (PyStr.strip line) in
  if bool_decide (length parts ≠ length header) then
    print (DiagColumnMismatch line_number filepath) ;; mret mapped_rows
  else
    mret (mapped_rows ++ [dict_of_zip header parts]).

Definition read_and_validate_file (fs : filesystem) (filepath : string)
    (valid_rate_keys : list string) : M (list rec) :=
  match fs !! filepath with
  | None => raise (FileNotFoundError filepath)
  | Some lines =>
      match lines with
      | [] => mret []
      | line0 :: data =>
          let header := PyStr.split CSV_SEPARATOR (PyStr.strip line0) in
          for_each (fun col =>
                      if bool_decide (col ∉ header)
                      then raise (ValueError (MissingRequiredColumn col filepath))
                      else mret tt)
                   REQUIRED_COLUMNS ;;
          match select_rate_column valid_rate_keys header with
          | None | Some EmptyString => raise (ValueError (MissingRateColumn filepath))
          | Some rate_column =>
              mapped_rows ← for_fold (mapped_rows_step filepath header) []
                                     (enumerate 2 data);
              form_records mapped_rows rate_column
          end
      end
  end.

(** ** Report generator *)

(** [defaultdict(list)] as the insertion-ordered dictionary it is: keys
    in order of first insertion, [d[k].append(v)] extends the list of an
    existing key in place and adds a new key at the end. *)
Fixpoint dd_append {A} (k : string) (v : A) (d : list (string * list A))
    : list (string * list A) :=
  match d with
  | [] => [(k, [v])]
  | (k', vs) :: d' =>
      if decide (k = k') then (k', vs ++ [v]) :: d'
      else (k', vs) :: dd_append k v d'
  end.

(** [for rec in records: grouped[rec['department']].append(f(rec))] *)
Definition group_by_department {A} (f : rec -> A) (records : list rec)
    : list (string * list A) :=
  foldl (fun grouped r => dd_append (department r) (f r) grouped) [] records.

(** The columns of the payout table, [columns] in the source. *)
Inductive column := Name | Hours | Rate | Payout.

Definition columns : list column := [Name; Hours; Rate; Payout].

Definition col_name (col : column) : string :=
  match col with
  | Name => "name"
  | Hours => "hours"
  | Rate => "rate"
  | Payout => "payout"
  end.

(** [r[col]] is a [str] for [name] and a [float] otherwise. *)
Inductive value := VStr (s : string) | VFloat (x : PyFloat.float).

Definition getcol (r : rec) (col : column) : value :=
  match col with
  | Name => VStr (name r)
  | Hours => VFloat (hours r)
  | Rate => VFloat (rate r)
  | Payout => VFloat (payout r)
  end.

(** [f"{v:.0f}" if isinstance(v, float) else str(v)]: the text whose
    length enters the column width. *)
Definition width_text (v : value) : string :=
  match v with
  | VFloat x => PyFloat.format_f 0 x
  | VStr s => s
  end.

(** [max(len(col), *(len(...) for r in recs))]. With an empty [recs] the
    call is [max(n)] on a single integer, a [TypeError]. *)
Definition col_width (recs : list rec) (col : column) : nat :=
  foldl (fun w r => Nat.max w (String.length (width_text (getcol r col))))
        (String.length (col_name col)) recs.

Definition TAB : string := String "009" EmptyString.
Definition NL : string := String "010" EmptyString.

(** The separator after column number [i]: a tab but after the last. *)
Definition tab_after (i : nat) : string :=
  if bool_decide (i < length columns - 1)%nat then TAB else EmptyString.

(** The two loops that build [header] and [dash_line]. *)
Definition header_line (col_widths : column -> nat) : string :=
  foldl (fun header ic =>
           header +:+ PyStr.ljust (col_widths ic.2) (col_name ic.2) +:+ tab_after ic.1)
        EmptyString (enumerate 0 columns).

Definition dash_line (col_widths : column -> nat) : string :=
  foldl (fun dash_line ic =>
           dash_line +:+ PyStr.replicate_char (col_widths ic.2) "-" +:+ tab_after ic.1)
        EmptyString (enumerate 0 columns).

(** [f"${int(r[col])}" if col == 'payout' else f"{r[col]}"] *)
Definition cell_value (r : rec) (col : column) : M string :=
  match col with
  | Payout => z ← lift (PyFloat.to_int (payout r)); mret ("$" +:+ PyStr.str_of_Z z)
  | _ => mret (match getcol r col with
               | VStr s => s
               | VFloat x => PyFloat.repr x
               end)
  end.

Definition row_line (col_widths : column -> nat) (r : rec) : M string :=
  for_fold (fun line ic =>
              value ← cell_value r ic.2;
              mret (line +:+ PyStr.ljust (col_widths ic.2) value +:+ tab_after ic.1))
           EmptyString (enumerate 0 columns).

(** The body of the loop over [grouped.items()]. *)
Definition payout_block (item : string * list rec) : M unit :=
  let '(dept, recs) := item in
  print (Text (NL +:+ dept)) ;;
  col_widths ← match recs with
               | [] => raise TypeError
               | _ => mret (col_width recs)
               end;
  print (Text (header_line col_widths)) ;;
  print (Text (dash_line col_widths)) ;;
  for_each (fun r => line ← row_line col_widths r; print (Text line)) recs.

Definition generate_payout_report (records : list rec) : M unit :=
  let grouped := group_by_department (fun r => r) records in
  for_each payout_block grouped.

(** [sum(xs)] on a non-empty list of floats. The builtin starts from
    the integer [0] and adds from left to right; up to CPython 3.11 the
    result is the sequence of float additions. *)
Definition sum_plain (xs : list PyFloat.float) : PyFloat.float :=
  foldl PyFloat.add PyFloat.zero xs.

(** From CPython 3.12 on, after the first addition [0 + x], the builtin
    accumulates the rounding errors of the partial sums in [c] (Neumaier's
    variant of compensated summation) and adds [c] at the end when it is
    finite and not zero. *)
Definition compensated_step (fc : PyFloat.float * PyFloat.float)
    (x : PyFloat.float) : PyFloat.float * PyFloat.float :=
  let '(f, c) := fc in
  let t := PyFloat.add f x in
  if PyFloat.leb (PyFloat.abs x) (PyFloat.abs f)
  then (t, PyFloat.add c (PyFloat.add (PyFloat.sub f t) x))
  else (t, PyFloat.add c (PyFloat.add (PyFloat.sub x t) f)).

Definition sum_compensated (xs : list PyFloat.float) : PyFloat.float :=
  match xs with
  | [] => PyFloat.zero
  | x :: xs' =>
      let '(f, c) := foldl compensated_step (PyFloat.add PyFloat.zero x, PyFloat.zero) xs' in
      if PyFloat.is_finite c && negb (PyFloat.eqb c PyFloat.zero)
      then PyFloat.add f c
      else f
  end.

Section Reports.

(** The builtin [sum] of the interpreter that runs the program, on
    lists of floats: [sum_plain] or [sum_compensated]. *)
Variable py_sum : list PyFloat.float -> PyFloat.float.

(** [sum(rates) / len(rates) if rates else 0]; the integer [0] of the
    second branch is formatted by [.2f] as the float zero is. *)
Definition mean_rate (rates : list PyFloat.float) : PyFloat.float :=
  match rates with
  | [] => PyFloat.zero
  | _ => PyFloat.div (py_sum rates) (PyFloat.of_Z (Z.of_nat (length rates)))
  end.

(** [f"{dept:<10}\t{mean:.2f}"] *)
Definition mean_rate_line (item : string * list PyFloat.float) : string :=
  PyStr.ljust 10 item.1 +:+ TAB +:+ PyFloat.format_f 2 (mean_rate item.2).

Definition generate_mean_rate_report (records : list rec) : M unit :=
  let rate_data := group_by_department rate records in
  print (Text (NL +:+ "Department" +:+ TAB +:+ "Mean Rate")) ;;
  print (Text ("----------" +:+ TAB +:+ "---------")) ;;
  for_each (fun item => print (Text (mean_rate_line item))) rate_data.

(** ** Main program *)

(** The namespace returned by [parse_arguments]. *)
Record Namespace := mkNamespace {
  files : list string;
  report : string
}.

(** The first loop of [main], which fills [all_records]: a file whose
    loading raises is reported on standard error and skipped.
    [rate_columns] lists the set [RATE_COLUMNS] in its iteration order. *)
Definition load_files (fs : filesystem) (rate_columns : list string)
    (files : list string) : M (list rec) :=
  for_fold
    (fun all_records filepath =>
       try_except
         (records ← read_and_validate_file fs filepath rate_columns;
          mret (all_records ++ records))
         (fun e =>
            if is_Exception e
            then Some (eprint (FileError filepath e) ;; mret all_records)
            else None))
    [] files.

(** The body of [main] after [args = parse_arguments()]. *)
Definition main (fs : filesystem) (rate_columns : list string) (args : Namespace)
    : M unit :=
  all_records ← load_files fs rate_columns (files args);
  if bool_decide (report args = "payout") then
    generate_payout_report all_records
  else if bool_decide (report args = "mean_rate_department") then
    generate_mean_rate_report all_records
  else
    eprint ReportNotImplemented ;; raise (SystemExit 1).

End Reports.

(** Exit status of the process for the outcome of [main]: [0] on normal
    return, the code of [sys.exit], [1] for an uncaught exception. *)
Definition exit_status (r : exn + unit) : Z :=
  match r with
  | inr _ => 0
  | inl (SystemExit code) => code
  | inl _ => 1
  end.

(** * Derived descriptions used in the statements *)

(** The world after more items were written to standard output. *)
Definition emit (items : list stdout_item) (w : world) : world :=
  mkWorld (stdout w ++ items) (stderr w).

(** What [form_records] does with one row. *)
Inductive row_result :=
| RowBad                 (** the [except] clause: diagnostic, row skipped *)
| RowRejected            (** the validation [continue]: silently skipped *)
| RowAccepted (r : rec).

Definition row_outcome (rate_column : string) (parts : gmap string string)
    : row_result :=
  match parts !! "name", parts !! "department",
        parts !! "hours_worked", parts !! rate_column with
  | Some n, Some d, Some h, Some rt =>
      match PyFloat.py_float h, PyFloat.py_float rt with
      | inr hours, inr rate =>
          if bool_decide (PyStr.strip n = "") || bool_decide (PyStr.strip d = "")
             || PyFloat.ltb hours PyFloat.zero || PyFloat.ltb rate PyFloat.zero
          then RowRejected
          else RowAccepted (mkRec (PyStr.strip n) (PyStr.strip d) hours rate
                                  (PyFloat.mul hours rate))
      | _, _ => RowBad
      end
  | _, _, _, _ => RowBad
  end.

Definition accepted (rate_column : string) (parts : gmap string string)
    : option rec :=
  match row_outcome rate_column parts with
  | RowAccepted r => Some r
  | _ => None
  end.

(** The diagnostics of [form_records] on [rows], numbered from [start]. *)
Fixpoint row_diags (start : nat) (rate_column : string)
    (rows : list (gmap string string)) : list stdout_item :=
  match rows with
  | [] => []
  | parts :: rows' =>
      match row_outcome rate_column parts with
      | RowBad => [DiagBadRow start]
      | _ => []
      end ++ row_diags (S start) rate_column rows'
  end.

(** The fields of a line: [line.strip().split(CSV_SEPARATOR)]. *)
Definition fields (line : string) : list string :=
  PyStr.split CSV_SEPARATOR (PyStr.strip line).

(** A data line is well formed when it has as many fields as the header. *)
Definition well_formed (header : list string) (line : string) : Prop :=
  length (fields line) = length header.

Global Instance well_formed_dec header line : Decision (well_formed header line).
Proof. unfold well_formed. apply _. Defined.

(** The rows that reach [form_records]. *)
Definition loaded_rows (header : list string) (data : list string)
    : list (gmap string string) :=
  map (fun line => dict_of_zip header (fields line)) (filter (well_formed header) data).

(** The column-count diagnostics, lines numbered from [start]. *)
Fixpoint mismatch_diags (start : nat) (filepath : string) (header : list string)
    (data : list string) : list stdout_item :=
  match data with
  | [] => []
  | line :: data' =>
      (if decide (well_formed header line) then []
       else [DiagColumnMismatch start filepath])
      ++ mismatch_diags (S start) filepath header data'
  end.

(** The first required column that the header lacks, if any. *)
Definition first_missing (header : list string) : option string :=
  head (filter (fun col => col ∉ header) REQUIRED_COLUMNS).

(** The distinct elements of [l] in order of first occurrence. *)
Fixpoint first_seen (l : list string) : list string :=
  match l with
  | [] => []
  | x :: l' => x :: filter (fun y => y ≠ x) (first_seen l')
  end.

(** The groups of a report: one per department, in order of first
    occurrence in [records], each holding [f r] for the records [r] of
    that department, in the order of [records]. *)
Definition department_groups {A} (f : rec -> A) (records : list rec)
    : list (string * list A) :=
  map (fun dept => (dept, map f (filter (fun r => department r = dept) records)))
      (first_seen (map department records)).

(** One data row of the payout table: [int(payout)] may raise; otherwise
    the four cells, each left-justified to its column width, separated
    by tabs. *)
Definition row_text (col_widths : column -> nat) (r : rec) : exn + string :=
  match PyFloat.to_int (payout r) with
  | inl e => inl e
  | inr z =>
      inr (PyStr.ljust (col_widths Name) (name r) +:+ TAB
           +:+ PyStr.ljust (col_widths Hours) (PyFloat.repr (hours r)) +:+ TAB
           +:+ PyStr.ljust (col_widths Rate) (PyFloat.repr (rate r)) +:+ TAB
           +:+ PyStr.ljust (col_widths Payout) ("$" +:+ PyStr.str_of_Z z))
  end.

(** The header row and the row of dashes of the payout table. *)
Definition header_text (col_widths : column -> nat) : string :=
  PyStr.ljust (col_widths Name) "name" +:+ TAB
  +:+ PyStr.ljust (col_widths Hours) "hours" +:+ TAB
  +:+ PyStr.ljust (col_widths Rate) "rate" +:+ TAB
  +:+ PyStr.ljust (col_widths Payout) "payout".

Definition dash_text (col_widths : column -> nat) : string :=
  PyStr.replicate_char (col_widths Name) "-" +:+ TAB
  +:+ PyStr.replicate_char (col_widths Hours) "-" +:+ TAB
  +:+ PyStr.replicate_char (col_widths Rate) "-" +:+ TAB
  +:+ PyStr.replicate_char (col_widths Payout) "-".

(** The lines that the payout report prints for one department, in
    order; a line that raises instead of being printed is an [inl]. *)
Definition block_actions (item : string * list rec) : list (exn + string) :=
  inr (NL +:+ item.1)
  :: match item.2 with
     | [] => [inl TypeError]
     | _ =>
         inr (header_text (col_width item.2))
         :: inr (dash_text (col_width item.2))
         :: map (row_text (col_width item.2)) item.2
     end.

(** What a sequence of such lines leaves on standard output: the lines
    before the first that raises; and how it ends. *)
Fixpoint printed (actions : list (exn + string)) : list string :=
  match actions with
  | inr s :: rest => s :: printed rest
  | _ => []
  end.

Fixpoint outcome (actions : list (exn + string)) : exn + unit :=
  match actions with
  | [] => inr tt
  | inr _ :: rest => outcome rest
  | inl e :: _ => inl e
  end.

(** The lines of the whole payout report. *)
Definition payout_actions (records : list rec) : list (exn + string) :=
  concat (map block_actions (department_groups (fun r => r) records)).

(** The two heading lines of the mean-rate report. *)
Definition mean_rate_heading : list string :=
  [NL +:+ "Department" +:+ TAB +:+ "Mean Rate";
   "----------" +:+ TAB +:+ "---------"].

(** The record, if any, that the loader makes of one data line. *)
Definition line_record (rate_column : string) (header : list string)
    (line : string) : option rec :=
  if decide (well_formed header line)
  then accepted rate_column (dict_of_zip header (fields line))
  else None.

(** What loading one file contributes to a run of [main]: its records
    (none when loading raises), its diagnostics on standard output, and
    its error message on standard error. *)
Definition file_run (fs : filesystem) (rate_columns : list string)
    (filepath : string) : world * (exn + list rec) :=
  read_and_validate_file fs filepath rate_columns empty_world.

Definition file_records (fs : filesystem) (rate_columns : list string)
    (filepath : string) : list rec :=
  match (file_run fs rate_columns filepath).2 with
  | inr records => records
  | inl _ => []
  end.

Definition file_diags (fs : filesystem) (rate_columns : list string)
    (filepath : string) : list stdout_item :=
  stdout (file_run fs rate_columns filepath).1.

Definition file_errors (fs : filesystem) (rate_columns : list string)
    (filepath : string) : list stderr_item :=
  match (file_run fs rate_columns filepath).2 with
  | inr _ => []
  | inl e => [FileError filepath e]
  end.

(** The world after the loading loop of [main] over [files]. *)
Definition loaded_world (fs : filesystem) (rate_columns : list string)
    (files : list string) (w : world) : world :=
  mkWorld (stdout w ++ concat (map (file_diags fs rate_columns) files))
          (stderr w ++ concat (map (file_errors fs rate_columns) files)).

(** A diagnostic, as opposed to a line of a report. *)
Definition is_diagnostic (x : stdout_item) : Prop :=
  match x with
  | Text _ => False
  | _ => True
  end.

(** The selection of the rate column as the specification words it:
    the first field of the header, in header order, that is one of the
    candidates. *)
Definition first_rate_column_in_header_order (valid_rate_keys header : list string)
    : option string :=
  head (filter (fun col => col ∈ valid_rate_keys) header).

(** A string of decimal digits. *)
Fixpoint all_digits (s : string) : bool :=
  match s with
  | EmptyString => true
  | String c s' => PyStr.is_digit c && all_digits s'
  end.

(** * Sample inputs *)

(** The usual header line, with its line terminator. *)
Definition sample_header : string :=
  "id,email,name,department,hours_worked,rate" +:+ NL.

(** A raw row whose hours are the text [nan]. *)
Definition nan_row : gmap string string :=
  dict_of_zip ["name"; "department"; "hours_worked"; "rate"]
              ["Dan"; "HR"; "nan"; "5"].

Definition nan_fs : filesystem :=
  {[ "t.csv" := [sample_header; "4,t,Dan,HR,nan,5" +:+ NL] ]}.

(** A file with two rate-bearing columns, [rate] before [salary]. *)
Definition two_rates_header : string :=
  "id,email,name,department,hours_worked,rate,salary" +:+ NL.

Definition two_rates_fs : filesystem :=
  {[ "t.csv" := [two_rates_header; "1,a,Alice,HR,10,50,70" +:+ NL] ]}.

(** An iteration order of the set [RATE_COLUMNS]. *)
Definition salary_first : list string := ["salary"; "rate"; "hourly_rate"].

(** A file whose line 2 lacks a field and whose line 3 has hours that
    are not a number. *)
Definition short_line : string := "1,a,Alice,HR,40" +:+ NL.
Definition bad_hours_line : string := "2,b,Bob,HR,abc,50" +:+ NL.

Definition drift_fs : filesystem :=
  {[ "t.csv" := [sample_header; short_line; bad_hours_line] ]}.

(** The file of the test [test_file_with_column_mismatch]. *)
Definition mismatch_fs : filesystem :=
  {[ "mismatch.csv" := [sample_header;
                        "1,test,Alice,Marketing,40" +:+ NL;
                        "2,test,Bob,Sales,35,55"] ]}.

(** An empty file and a file with a header only. *)
Definition empty_fs : filesystem := {[ "empty.csv" := [] ]}.

Definition header_only_fs : filesystem :=
  {[ "header_only.csv" := [sample_header] ]}.

(** A header whose second field is [email] preceded by a blank. *)
Definition spaced_header : string :=
  "id, email,name,department,hours_worked,rate" +:+ NL.

Definition spaced_header_fs : filesystem :=
  {[ "t.csv" := [spaced_header; "1,a,Alice,HR,40,50" +:+ NL] ]}.

(** A row with hours that are not integral and a seven-digit payout. *)
Definition wide_fs : filesystem :=
  {[ "t.csv" := [sample_header; "3,t,Carl,Sales,999999.5,2" +:+ NL] ]}.

(** A row with a rate of three digits. *)
Definition hundred_fs : filesystem :=
  {[ "t.csv" := [sample_header; "1,a,Alice,HR,40,100" +:+ NL] ]}.

(** A department whose name has eleven characters. *)
Definition long_dept_fs : filesystem :=
  {[ "t.csv" := [sample_header; "4,t,Dan,Engineering,1.5,50" +:+ NL] ]}.

(** The file of scenario A of the specification. *)
Definition scenario_a_fs : filesystem :=
  {[ "a.csv" := [sample_header; "1,a,Alice,Mktg,40,50" +:+ NL;
                 "2,b,Bob,Sales,35,60" +:+ NL] ]}.

(** The float that a decimal literal denotes. *)
Definition float_lit (s : string) : PyFloat.float :=
  match PyFloat.py_float s with
  | inr x => x
  | inl _ => PyFloat.nan
  end.

(** The record that the loader makes of the data line of [wide_fs]. *)
Definition carl : rec :=
  mkRec "Carl" "Sales" (float_lit "999999.5") (float_lit "2")
        (PyFloat.mul (float_lit "999999.5") (float_lit "2")).

(** The record that the loader makes of the data line of [hundred_fs]. *)
Definition alice : rec :=
  mkRec "Alice" "HR" (float_lit "40") (float_lit "100")
        (PyFloat.mul (float_lit "40") (float_lit "100")).

(** * Further descriptions *)

(** The value that a list of key-value pairs gives to [k] when the pairs
    are stored one after the other: that of the last pair with key [k]. *)
Definition last_binding (k : string) (pairs : list (string * string))
    : option string :=
  snd <$> last (filter (fun kv => kv.1 = k) pairs).

(** The records of all the files of a run, in order. *)
Definition all_records (fs : filesystem) (rate_columns : list string)
    (files : list string) : list rec :=
  concat (map (file_records fs rate_columns) files).

(** A header without any rate-bearing column. *)
Definition no_rate_header : string :=
  "id,email,name,department,hours_worked" +:+ NL.

Definition no_rate_fs : filesystem :=
  {[ "t.csv" := [no_rate_header; "1,a,Alice,HR,40" +:+ NL] ]}.

(** A row that parses and has negative hours, between two valid rows. *)
Definition valid_row_alice : gmap string string :=
  dict_of_zip (fields sample_header) (fields "1,a,Alice,Mktg,40,50").

Definition negative_hours_row : gmap string string :=
  dict_of_zip (fields sample_header) (fields "2,b,Bob,Sales,-5,60").

Definition valid_row_eve : gmap string string :=
  dict_of_zip (fields sample_header) (fields "3,c,Eve,HR,10,20").

(** The usual columns in another order, and a row in that order. *)
Definition reordered_header : list string :=
  ["rate"; "name"; "id"; "hours_worked"; "email"; "department"].

Definition reordered_fields : list string :=
  ["50"; "Alice"; "1"; "40"; "a"; "Mktg"].

(** A row whose name and department have blanks around them. *)
Definition padded_row : gmap string string :=
  dict_of_zip (fields sample_header) (fields "1,a,  Alice , Mktg ,40,50").

(** [sep.join(fields)] *)
Fixpoint join (sep : ascii) (fs : list string) : string :=
  match fs with
  | [] => EmptyString
  | [f] => f
  | f :: rest => f +:+ String sep (join sep rest)
  end.

(** [c in s] for a character [c]. *)
Fixpoint contains (c : ascii) (s : string) : bool :=
  match s with
  | EmptyString => false
  | String a s' => Ascii.eqb a c || contains c s'
  end.

(** A string of whitespace characters only (it may be empty). *)
Fixpoint all_space (s : string) : bool :=
  match s with
  | EmptyString => true
  | String c s' => PyStr.isspace c && all_space s'
  end.

(** A file with an empty line between two rows and a blank line at the
    end. *)
Definition blank_lines_fs : filesystem :=
  {[ "t.csv" := [sample_header; "1,a,Alice,Mktg,40,50" +:+ NL; NL;
                 "2,b,Bob,Sales,35,60" +:+ NL; "  " +:+ NL] ]}.

(** A file whose lines all have six fields: line 3 has negative hours,
    lines 4 and 6 hold hours and a rate that are not numbers. *)
Definition unparsed_rows : list string :=
  ["1,a,Alice,Mktg,40,50" +:+ NL;
   "2,b,Bob,Sales,-5,60" +:+ NL;
   "3,c,Cy,HR,abc,20" +:+ NL;
   "4,d,Dee,HR,10,20" +:+ NL;
   "5,e,Eve,HR,10,x" +:+ NL].

Definition unparsed_rows_fs : filesystem :=
  {[ "t.csv" := sample_header :: unparsed_rows ]}.

(** * Verification *)

Lemma emit_nil w : emit [] w = w.
Proof. destruct w; unfold emit; simpl. by rewrite app_nil_r. Qed.

Lemma emit_emit xs ys w : emit ys (emit xs w) = emit (xs ++ ys) w.
Proof. unfold emit; simpl. by rewrite app_assoc. Qed.

Lemma print_run x w : print x w = (emit [x] w, inr tt).
Proof. reflexivity. Qed.

Ltac unfold_M :=
  unfold getitem, float_of, try_except in *;
  unfold mbind, M_bind, fmap, M_fmap, mret, M_ret, raise, lift, print in *.

(** [float(s)] raises nothing but [ValueError]. *)
Lemma py_float_error s e :
  PyFloat.py_float s = inl e -> e = ValueError (FloatOfString s).
Proof.
  unfold PyFloat.py_float.
  destruct (PyFloat.remove_underscores _ _) as [t|]; [|congruence].
  destruct (PyFloat.parse_sign t) as [sign body].
  repeat case_decide; try discriminate.
  destruct (PyFloat.parse_decimal body) as [[mant ex]|]; congruence.
Qed.

Lemma form_records_step_run rate_column records line_number parts w :
  form_records_step rate_column records (line_number, parts) w =
    match row_outcome rate_column parts with
    | RowBad => (emit [DiagBadRow line_number] w, inr records)
    | RowRejected => (w, inr records)
    | RowAccepted r => (w, inr (records ++ [r]))
    end.
Proof.
  unfold form_records_step, row_outcome. unfold_M.
  destruct (parts !! "name") as [n|]; [|done].
  destruct (parts !! "department") as [d|]; [|done].
  destruct (parts !! "hours_worked") as [h|]; [|done].
  destruct (PyFloat.py_float h) as [e|hours] eqn:Hh.
  { apply py_float_error in Hh as ->.
    by destruct (parts !! rate_column). }
  destruct (parts !! rate_column) as [rt|]; [|done].
  destruct (PyFloat.py_float rt) as [e|rate] eqn:Hr.
  { by apply py_float_error in Hr as ->. }
  simpl. by destruct (_ || _).
Qed.

Lemma form_records_loop rate_column rows : forall start acc w,
  for_fold (form_records_step rate_column) acc (enumerate start rows) w =
    (emit (row_diags start rate_column rows) w,
     inr (acc ++ omap (accepted rate_column) rows)).
Proof.
  induction rows as [|parts rows IH]; intros start acc w;
    cbn [enumerate for_fold omap list_omap row_diags].
  - by rewrite emit_nil, app_nil_r.
  - unfold mbind, M_bind. rewrite form_records_step_run. unfold accepted.
    destruct (row_outcome rate_column parts) as [| |r]; rewrite IH; simpl.
    + by rewrite emit_emit.
    + done.
    + by rewrite <- app_assoc.
Qed.

Lemma form_records_run rows rate_column w :
  form_records rows rate_column w =
    (emit (row_diags 2 rate_column rows) w, inr (omap (accepted rate_column) rows)).
Proof. unfold form_records. by rewrite form_records_loop. Qed.

Lemma mapped_rows_loop filepath header data : forall start acc w,
  for_fold (mapped_rows_step filepath header) acc (enumerate start data) w =
    (emit (mismatch_diags start filepath header data) w,
     inr (acc ++ loaded_rows header data)).
Proof.
  unfold loaded_rows.
  induction data as [|line data IH]; intros start acc w;
    cbn [enumerate for_fold mismatch_diags].
  - by rewrite emit_nil, app_nil_r.
  - unfold mbind at 1, M_bind at 1. unfold mapped_rows_step at 1.
    fold (fields line). rewrite filter_cons.
    destruct (decide (well_formed header line)) as [Hwf|Hwf].
    + rewrite bool_decide_eq_false_2 by (unfold well_formed in Hwf; lia).
      unfold mret at 1, M_ret at 1. rewrite IH. simpl.
      by rewrite <- app_assoc.
    + rewrite bool_decide_eq_true_2 by (unfold well_formed in Hwf; lia).
      unfold mbind, M_bind. rewrite print_run.
      unfold mret at 1, M_ret at 1. rewrite IH. by rewrite emit_emit.
Qed.

Lemma required_loop filepath (header cols : list string) w :
  for_each (fun col =>
              if bool_decide (col ∉ header)
              then raise (ValueError (MissingRequiredColumn col filepath))
              else mret tt) cols w =
    match head (filter (fun col => col ∉ header) cols) with
    | Some col => (w, inl (ValueError (MissingRequiredColumn col filepath)))
    | None => (w, inr tt)
    end.
Proof.
  induction cols as [|col cols IH]; [done|].
  cbn [for_each]. rewrite filter_cons. unfold mbind, M_bind.
  destruct (decide (col ∉ header)) as [Hc|Hc].
  - by rewrite bool_decide_eq_true_2.
  - rewrite bool_decide_eq_false_2 by done. unfold mret at 1, M_ret at 1.
    apply IH.
Qed.

(** The loader, as a function of the file system. *)
Lemma read_and_validate_file_run fs filepath valid_rate_keys w :
  read_and_validate_file fs filepath valid_rate_keys w =
    match fs !! filepath with
    | None => (w, inl (FileNotFoundError filepath))
    | Some [] => (w, inr [])
    | Some (line0 :: data) =>
        let header := fields line0 in
        match first_missing header with
        | Some col => (w, inl (ValueError (MissingRequiredColumn col filepath)))
        | None =>
            match select_rate_column valid_rate_keys header with
            | None | Some EmptyString =>
                (w, inl (ValueError (MissingRateColumn filepath)))
            | Some rate_column =>
                (emit (mismatch_diags 2 filepath header data
                       ++ row_diags 2 rate_column (loaded_rows header data)) w,
                 inr (omap (accepted rate_column) (loaded_rows header data)))
            end
        end
    end.
Proof.
  unfold read_and_validate_file.
  destruct (fs !! filepath) as [[|line0 data]|]; [done| |done].
  fold (fields line0). cbv zeta.
  unfold mbind at 1, M_bind at 1. rewrite required_loop.
  fold (first_missing (fields line0)).
  destruct (first_missing (fields line0)); [done|].
  destruct (select_rate_column valid_rate_keys (fields line0)) as [[|c rc]|];
    [done| |done].
  unfold mbind, M_bind. rewrite mapped_rows_loop. cbn [app].
  rewrite form_records_run. by rewrite emit_emit.
Qed.

(** ** Grouping by department *)

Lemma elem_of_first_seen (l : list string) x : x ∈ first_seen l <-> x ∈ l.
Proof.
  induction l as [|a l IH]; simpl; [done|].
  rewrite !elem_of_cons, list_elem_of_filter, IH.
  destruct (decide (x = a)); tauto.
Qed.

Lemma NoDup_first_seen (l : list string) : NoDup (first_seen l).
Proof.
  induction l as [|a l IH]; simpl; [constructor|].
  constructor.
  - rewrite list_elem_of_filter. tauto.
  - by apply NoDup_filter.
Qed.

Lemma first_seen_snoc (l : list string) x :
  first_seen (l ++ [x]) =
    if decide (x ∈ l) then first_seen l else first_seen l ++ [x].
Proof.
  induction l as [|a l IH].
  - destruct (decide (x ∈ [])) as [H|H]; [|done].
    by apply not_elem_of_nil in H.
  - cbn [app first_seen]. rewrite IH.
    destruct (decide (x ∈ l)) as [Hx|Hx].
    + destruct (decide (x ∈ a :: l)) as [H|H]; [done|].
      exfalso. apply H. by right.
    + rewrite filter_app, filter_cons, filter_nil.
      destruct (decide (x = a)) as [->|Hxa].
      * destruct (decide (a ≠ a)) as [?|_]; [done|].
        destruct (decide (a ∈ a :: l)) as [_|H]; [by rewrite app_nil_r|].
        exfalso. apply H. by left.
      * destruct (decide (x ≠ a)) as [_|?]; [|done].
        destruct (decide (x ∈ a :: l)) as [H|_]; [|done].
        apply elem_of_cons in H as [?|?]; done.
Qed.

(** [d[k].append(v)] on a dictionary described key by key. *)
Lemma dd_append_map {A} k (v : A) (g : string -> list A) (ks : list string) :
  NoDup ks ->
  dd_append k v (map (fun d => (d, g d)) ks) =
    map (fun d => (d, if decide (d = k) then g d ++ [v] else g d)) ks
    ++ (if decide (k ∈ ks) then [] else [(k, [v])]).
Proof.
  induction ks as [|a ks IH]; intros Hnd.
  - destruct (decide (k ∈ [])) as [H|H]; [|done].
    by apply not_elem_of_nil in H.
  - apply NoDup_cons in Hnd as [Ha Hnd]. cbn [map dd_append app].
    destruct (decide (k = a)) as [->|Hka].
    + destruct (decide (a = a)) as [_|?]; [|done].
      destruct (decide (a ∈ a :: ks)) as [_|H]; [|exfalso; apply H; by left].
      rewrite app_nil_r. f_equal.
      apply map_ext_in. intros d Hd. apply list_elem_of_In in Hd.
      destruct (decide (d = a)) as [->|_]; done.
    + destruct (decide (a = k)) as [?|_]; [done|].
      rewrite IH by done. f_equal.
      destruct (decide (k ∈ ks)) as [Hk|Hk];
        destruct (decide (k ∈ a :: ks)) as [Hk'|Hk']; try done.
      * exfalso. apply Hk'. by right.
      * apply elem_of_cons in Hk' as [?|?]; done.
Qed.

Lemma group_by_department_snoc {A} (f : rec -> A) records r :
  group_by_department f (records ++ [r]) =
    dd_append (department r) (f r) (group_by_department f records).
Proof. unfold group_by_department. by rewrite foldl_app. Qed.

Lemma filter_department_absent (records : list rec) d :
  d ∉ map department records ->
  filter (fun r => department r = d) records = [].
Proof.
  induction records as [|r records IH]; intros Hd; [done|].
  rewrite filter_cons. cbn [map] in Hd.
  destruct (decide (department r = d)) as [<-|_].
  - exfalso. apply Hd. by left.
  - apply IH. intros H. apply Hd. by right.
Qed.

(** The dictionary built by the grouping loop lists the departments in
    order of first occurrence, each with its records in input order. *)
Lemma group_by_department_groups {A} (f : rec -> A) records :
  group_by_department f records = department_groups f records.
Proof.
  induction records as [|r records IH] using rev_ind; [done|].
  rewrite group_by_department_snoc, IH. unfold department_groups.
  rewrite (dd_append_map _ _
             (fun d => map f (filter (fun r => department r = d) records)))
    by apply NoDup_first_seen.
  rewrite map_app. cbn [map]. rewrite first_seen_snoc.
  assert (Hgroups : forall ks : list string,
    map (fun d => (d, if decide (d = department r)
                      then map f (filter (fun r0 => department r0 = d) records) ++ [f r]
                      else map f (filter (fun r0 => department r0 = d) records))) ks
    = map (fun d => (d, map f (filter (fun r0 => department r0 = d) (records ++ [r])))) ks).
  { intros ks. apply map_ext. intros d.
    rewrite filter_app, filter_cons, filter_nil, map_app.
    destruct (decide (d = department r)) as [->|Hd].
    - by destruct (decide (department r = department r)).
    - destruct (decide (department r = d)) as [?|_]; [done|].
      by rewrite app_nil_r. }
  rewrite Hgroups.
  destruct (decide (department r ∈ map department records)) as [Hin|Hin].
  - destruct (decide (department r ∈ first_seen (map department records)))
      as [_|H]; [by rewrite app_nil_r|].
    exfalso. by rewrite elem_of_first_seen in H.
  - destruct (decide (department r ∈ first_seen (map department records)))
      as [H|_]; [by rewrite elem_of_first_seen in H|].
    rewrite map_app. cbn [map]. do 3 f_equal.
    rewrite filter_app, filter_cons, filter_nil, map_app.
    rewrite filter_department_absent by done.
    by destruct (decide (department r = department r)).
Qed.

(** ** Strings *)

Lemma append_cons c (s t : string) : String c s +:+ t = String c (s +:+ t).
Proof. reflexivity. Qed.

Lemma append_nil_l (s : string) : "" +:+ s = s.
Proof. reflexivity. Qed.

Lemma append_nil_r (s : string) : s +:+ "" = s.
Proof. induction s as [|c s IH]; [done|]. by rewrite append_cons, IH. Qed.

Lemma append_assoc (s1 s2 s3 : string) : (s1 +:+ s2) +:+ s3 = s1 +:+ s2 +:+ s3.
Proof.
  induction s1 as [|c s1 IH]; [done|]. by rewrite !append_cons, IH.
Qed.

Lemma length_append (s1 s2 : string) :
  String.length (s1 +:+ s2) = (String.length s1 + String.length s2)%nat.
Proof.
  induction s1 as [|c s1 IH]; [done|]. rewrite append_cons. cbn. by rewrite IH.
Qed.

Lemma length_replicate_char n c : String.length (PyStr.replicate_char n c) = n.
Proof. induction n as [|n IH]; [done|]. cbn. by rewrite IH. Qed.

(** A left-justified field is as wide as asked, or as the text when the
    text is wider: nothing is cut. *)
Lemma length_ljust w s :
  String.length (PyStr.ljust w s) = Nat.max w (String.length s).
Proof.
  unfold PyStr.ljust. rewrite length_append, length_replicate_char. lia.
Qed.

(** ** The reports as functions of the records *)

Lemma for_each_print {A} (g : A -> string) (xs : list A) w :
  for_each (fun x => print (Text (g x))) xs w =
    (emit (map (fun x => Text (g x)) xs) w, inr tt).
Proof.
  revert w. induction xs as [|x xs IH]; intros w; cbn [for_each map].
  - by rewrite emit_nil.
  - unfold mbind, M_bind. rewrite print_run, IH. by rewrite emit_emit.
Qed.

Lemma generate_mean_rate_report_run py_sum records w :
  generate_mean_rate_report py_sum records w =
    (emit (map Text (mean_rate_heading
                     ++ map (mean_rate_line py_sum)
                            (department_groups rate records))) w,
     inr tt).
Proof.
  unfold generate_mean_rate_report. rewrite group_by_department_groups.
  unfold mbind, M_bind. rewrite !print_run, for_each_print, !emit_emit.
  by rewrite map_app, map_map.
Qed.

Lemma header_line_text col_widths : header_line col_widths = header_text col_widths.
Proof.
  unfold header_line, header_text. cbn.
  by rewrite append_nil_l, append_nil_r, !append_assoc.
Qed.

Lemma dash_line_text col_widths : dash_line col_widths = dash_text col_widths.
Proof.
  unfold dash_line, dash_text. cbn.
  by rewrite append_nil_l, append_nil_r, !append_assoc.
Qed.

Lemma row_line_run col_widths r w :
  row_line col_widths r w = (w, row_text col_widths r).
Proof.
  unfold row_line, row_text. cbn. unfold_M.
  destruct (PyFloat.to_int (payout r)) as [e|z]; [done|].
  by rewrite append_nil_l, append_nil_r, !append_assoc.
Qed.

Lemma printed_app (a b : list (exn + string)) :
  printed (a ++ b) =
    match outcome a with
    | inr _ => printed a ++ printed b
    | inl _ => printed a
    end.
Proof.
  induction a as [|[e|s] a IH]; cbn [app printed outcome]; [done..|].
  rewrite IH. by destruct (outcome a).
Qed.

Lemma outcome_app (a b : list (exn + string)) :
  outcome (a ++ b) =
    match outcome a with
    | inr _ => outcome b
    | inl e => inl e
    end.
Proof. induction a as [|[e|s] a IH]; cbn [app outcome]; done. Qed.

Lemma rows_loop col_widths recs w :
  for_each (fun r => line ← row_line col_widths r; print (Text line)) recs w =
    (emit (map Text (printed (map (row_text col_widths) recs))) w,
     outcome (map (row_text col_widths) recs)).
Proof.
  revert w. induction recs as [|r recs IH]; intros w;
    cbn [for_each map printed outcome].
  - by rewrite emit_nil.
  - unfold mbind, M_bind. rewrite row_line_run.
    destruct (row_text col_widths r) as [e|line].
    + by rewrite emit_nil.
    + rewrite print_run, IH. by rewrite emit_emit.
Qed.

Lemma payout_block_run item w :
  payout_block item w =
    (emit (map Text (printed (block_actions item))) w,
     outcome (block_actions item)).
Proof.
  destruct item as [dept recs]. unfold payout_block, block_actions.
  cbn [fst snd]. unfold mbind at 1, M_bind at 1. rewrite print_run.
  destruct recs as [|r recs]; [done|].
  unfold mbind at 1, M_bind at 1. unfold mret at 1, M_ret at 1.
  unfold mbind at 1, M_bind at 1. rewrite print_run.
  unfold mbind at 1, M_bind at 1. rewrite print_run.
  rewrite rows_loop, header_line_text, dash_line_text, !emit_emit.
  done.
Qed.

Lemma generate_payout_report_run records w :
  generate_payout_report records w =
    (emit (map Text (printed (payout_actions records))) w,
     outcome (payout_actions records)).
Proof.
  unfold generate_payout_report, payout_actions.
  rewrite group_by_department_groups.
  generalize (department_groups (fun r => r) records). intros items.
  revert w. induction items as [|item items IH]; intros w;
    cbn [for_each map concat].
  - by rewrite emit_nil.
  - unfold mbind, M_bind. rewrite payout_block_run, printed_app, outcome_app.
    destruct (outcome (block_actions item)) as [e|[]]; [done|].
    rewrite IH, emit_emit. by rewrite map_app.
Qed.

(** ** Loading the files *)

Lemma omap_loaded_rows rate_column header data :
  omap (accepted rate_column) (loaded_rows header data) =
    omap (line_record rate_column header) data.
Proof.
  unfold loaded_rows, line_record.
  induction data as [|line data IH]; [done|].
  rewrite filter_cons. cbn [omap list_omap].
  destruct (decide (well_formed header line)); cbn [map omap list_omap];
    by rewrite <- IH.
Qed.

(** The loader writes to standard output only, after what is there, and
    its result does not depend on the streams. *)
Lemma read_and_validate_file_frame fs filepath rate_columns w :
  read_and_validate_file fs filepath rate_columns w =
    (emit (file_diags fs rate_columns filepath) w,
     (file_run fs rate_columns filepath).2).
Proof.
  unfold file_diags, file_run. rewrite !read_and_validate_file_run.
  destruct (fs !! filepath) as [[|line0 data]|]; cbn; try by rewrite emit_nil.
  destruct (first_missing (fields line0)); cbn; [by rewrite emit_nil|].
  destruct (select_rate_column rate_columns (fields line0)) as [[|c rc]|];
    cbn; by rewrite ?emit_nil.
Qed.

(** Every exception of the loader is caught by [except Exception]. *)
Lemma file_run_exception fs rate_columns filepath e :
  (file_run fs rate_columns filepath).2 = inl e -> is_Exception e = true.
Proof.
  unfold file_run. rewrite read_and_validate_file_run.
  destruct (fs !! filepath) as [[|line0 data]|]; cbn;
    [discriminate| |by intros [= <-]].
  destruct (first_missing (fields line0)); cbn; [by intros [= <-]|].
  destruct (select_rate_column rate_columns (fields line0)) as [[|c rc]|];
    cbn; first [discriminate | by intros [= <-]].
Qed.

Lemma load_files_loop fs rate_columns files : forall acc w,
  for_fold
    (fun all_records filepath =>
       try_except
         (records ← read_and_validate_file fs filepath rate_columns;
          mret (all_records ++ records))
         (fun e =>
            if is_Exception e
            then Some (eprint (FileError filepath e) ;; mret all_records)
            else None))
    acc files w =
  (loaded_world fs rate_columns files w,
   inr (acc ++ concat (map (file_records fs rate_columns) files))).
Proof.
  unfold loaded_world.
  induction files as [|F files IH]; intros acc w; cbn [for_fold map concat].
  - destruct w. cbn. by rewrite !app_nil_r.
  - unfold mbind at 1, M_bind at 1. unfold try_except at 1.
    unfold mbind at 1, M_bind at 1. rewrite read_and_validate_file_frame.
    unfold file_records, file_errors.
    destruct ((file_run fs rate_columns F).2) as [e|records] eqn:Hrun.
    + rewrite (file_run_exception _ _ _ _ Hrun).
      unfold mbind at 1, M_bind at 1. unfold eprint at 1.
      unfold mret at 1, M_ret at 1. rewrite IH. cbn.
      by rewrite <- !app_assoc.
    + unfold mret at 1, M_ret at 1. rewrite IH. cbn.
      by rewrite <- !app_assoc.
Qed.

Lemma load_files_run fs rate_columns files w :
  load_files fs rate_columns files w =
    (loaded_world fs rate_columns files w,
     inr (concat (map (file_records fs rate_columns) files))).
Proof. unfold load_files. by rewrite load_files_loop. Qed.

Lemma mismatch_diags_diagnostic filepath header data : forall start,
  Forall is_diagnostic (mismatch_diags start filepath header data).
Proof.
  induction data as [|line data IH]; intros start; cbn [mismatch_diags].
  - constructor.
  - apply Forall_app. split; [|apply IH].
    destruct (decide (well_formed header line)); repeat constructor.
Qed.

Lemma row_diags_diagnostic rate_column rows : forall start,
  Forall is_diagnostic (row_diags start rate_column rows).
Proof.
  induction rows as [|parts rows IH]; intros start; cbn [row_diags].
  - constructor.
  - apply Forall_app. split; [|apply IH].
    destruct (row_outcome rate_column parts); repeat constructor.
Qed.

(** Loading prints diagnostics only, never a line of a report. *)
Lemma file_diags_diagnostic fs rate_columns filepath :
  Forall is_diagnostic (file_diags fs rate_columns filepath).
Proof.
  unfold file_diags, file_run. rewrite read_and_validate_file_run.
  destruct (fs !! filepath) as [[|line0 data]|]; cbn; try constructor.
  destruct (first_missing (fields line0)); cbn; [constructor|].
  destruct (select_rate_column rate_columns (fields line0)) as [[|c rc]|];
    cbn; try constructor.
  apply Forall_app. split.
  - apply mismatch_diags_diagnostic.
  - apply row_diags_diagnostic.
Qed.

Lemma main_run py_sum fs rate_columns args w :
  main py_sum fs rate_columns args w =
    let all_records := concat (map (file_records fs rate_columns) (files args)) in
    let w' := loaded_world fs rate_columns (files args) w in
    if bool_decide (report args = "payout") then
      generate_payout_report all_records w'
    else if bool_decide (report args = "mean_rate_department") then
      generate_mean_rate_report py_sum all_records w'
    else
      (mkWorld (stdout w') (stderr w' ++ [ReportNotImplemented]),
       inl (SystemExit 1)).
Proof.
  unfold main. unfold mbind at 1, M_bind at 1. rewrite load_files_run.
  cbv zeta. repeat case_bool_decide; done.
Qed.

(** ** Header checks *)

Lemma head_filter_None {A} (P : A -> Prop) `{!forall x, Decision (P x)} (l : list A) :
  head (filter P l) = None <-> Forall (fun x => ~ P x) l.
Proof.
  induction l as [|a l IH]; [by split; [constructor|]|].
  rewrite filter_cons, Forall_cons.
  destruct (decide (P a)) as [Ha|Ha]; cbn.
  - split; [discriminate|tauto].
  - rewrite IH. tauto.
Qed.

Lemma head_filter_Some {A} (P : A -> Prop) `{!forall x, Decision (P x)} (l : list A) x :
  head (filter P l) = Some x <->
  exists pre post, l = pre ++ x :: post /\ P x /\ Forall (fun y => ~ P y) pre.
Proof.
  induction l as [|a l IH].
  - split; [discriminate|]. intros (pre & post & Hl & _).
    by destruct pre.
  - rewrite filter_cons. destruct (decide (P a)) as [Ha|Ha]; cbn.
    + split.
      * intros [= <-]. exists [], l. by repeat split.
      * intros (pre & post & Hl & Hx & Hpre).
        destruct pre as [|b pre]; cbn in Hl.
        -- congruence.
        -- injection Hl as <- _. by apply Forall_cons in Hpre as [? _].
    + rewrite IH. split.
      * intros (pre & post & -> & Hx & Hpre).
        exists (a :: pre), post. repeat split; [done|]. by constructor.
      * intros (pre & post & Hl & Hx & Hpre).
        destruct pre as [|b pre]; cbn in Hl.
        -- injection Hl as -> _. done.
        -- injection Hl as <- ->. apply Forall_cons in Hpre as [_ Hpre].
           by exists pre, post.
Qed.

(** No required column is missing exactly when all are in the header. *)
Lemma first_missing_None (header : list string) :
  first_missing header = None <->
  forall col, col ∈ REQUIRED_COLUMNS -> col ∈ header.
Proof.
  unfold first_missing. rewrite head_filter_None, Forall_forall.
  split; intros H col Hcol.
  - destruct (decide (col ∈ header)) as [|Hn]; [done|].
    by destruct (H col Hcol).
  - intros Hn. by apply Hn, H.
Qed.

Lemma first_missing_Some (header : list string) col :
  first_missing header = Some col -> col ∈ REQUIRED_COLUMNS /\ col ∉ header.
Proof.
  unfold first_missing. rewrite head_filter_Some.
  intros (pre & post & -> & Hcol & _). split; [|done].
  apply elem_of_app. right. by left.
Qed.

(** The rate column is the first key, in the iteration order of the set
    of candidates, that the header contains. *)
Lemma select_rate_column_Some (valid_rate_keys header : list string) c :
  select_rate_column valid_rate_keys header = Some c <->
  exists pre post, valid_rate_keys = pre ++ c :: post /\ c ∈ header
                   /\ Forall (fun k => k ∉ header) pre.
Proof.
  unfold select_rate_column.
  apply (head_filter_Some (fun col => col ∈ header)).
Qed.

Lemma select_rate_column_None (valid_rate_keys header : list string) :
  select_rate_column valid_rate_keys header = None <->
  Forall (fun k => k ∉ header) valid_rate_keys.
Proof.
  unfold select_rate_column.
  apply (head_filter_None (fun col => col ∈ header)).
Qed.

(** ** Diagnostics of the loader *)

Lemma elem_of_mismatch_diags filepath header data x : forall start,
  x ∈ mismatch_diags start filepath header data <->
  exists i line, data !! i = Some line /\ ~ well_formed header line
                 /\ x = DiagColumnMismatch (start + i) filepath.
Proof.
  induction data as [|l data IH]; intros start; cbn [mismatch_diags].
  - split; [by intros ?%not_elem_of_nil|]. by intros (i & line & ? & _).
  - rewrite elem_of_app, IH. split.
    + intros [Hx|(i & line & Hi & Hwf & ->)].
      * destruct (decide (well_formed header l)) as [|Hwf];
          [by apply not_elem_of_nil in Hx|].
        apply list_elem_of_singleton in Hx as ->.
        exists 0%nat, l. by rewrite Nat.add_0_r.
      * exists (S i), line. repeat split; [done..|]. f_equal. lia.
    + intros ([|i] & line & Hi & Hwf & ->).
      * left. injection Hi as ->.
        rewrite decide_False by done. rewrite Nat.add_0_r. by left.
      * right. exists i, line. repeat split; [done..|]. f_equal. lia.
Qed.

(** ** Validated records *)

(** What the validation of [form_records] guarantees of a record. *)
Lemma accepted_valid rate_column parts r :
  accepted rate_column parts = Some r ->
  name r ≠ "" /\ department r ≠ ""
  /\ PyFloat.ltb (hours r) PyFloat.zero = false
  /\ PyFloat.ltb (rate r) PyFloat.zero = false
  /\ payout r = PyFloat.mul (hours r) (rate r).
Proof.
  unfold accepted, row_outcome.
  destruct (parts !! "name") as [n|]; [|done].
  destruct (parts !! "department") as [d|]; [|done].
  destruct (parts !! "hours_worked") as [h|]; [|done].
  destruct (parts !! rate_column) as [rt|]; [|done].
  destruct (PyFloat.py_float h) as [|hs]; [done|].
  destruct (PyFloat.py_float rt) as [|rs]; [done|].
  destruct (_ || _) eqn:Hcheck; [done|]. intros [= <-]. cbn.
  apply orb_false_elim in Hcheck as [Hcheck Hrate].
  apply orb_false_elim in Hcheck as [Hcheck Hhours].
  apply orb_false_elim in Hcheck as [Hname Hdept].
  apply bool_decide_eq_false in Hname, Hdept. done.
Qed.

(** A float that is neither negative nor NaN is at least zero. *)
Lemma not_negative_not_nan x :
  PyFloat.ltb x PyFloat.zero = false -> x ≠ PyFloat.nan ->
  PyFloat.leb PyFloat.zero x = true.
Proof. by destruct x as [[]|[]| |[] m e]. Qed.

(** Every record that [form_records] returns passed the validation; its
    hours and rate are at least zero unless they are NaN. *)
Lemma form_records_valid rows rate_column w r :
  (exists records, (form_records rows rate_column w).2 = inr records /\ r ∈ records) ->
  name r ≠ "" /\ department r ≠ ""
  /\ PyFloat.ltb (hours r) PyFloat.zero = false
  /\ PyFloat.ltb (rate r) PyFloat.zero = false
  /\ payout r = PyFloat.mul (hours r) (rate r)
  /\ (hours r ≠ PyFloat.nan -> PyFloat.leb PyFloat.zero (hours r) = true)
  /\ (rate r ≠ PyFloat.nan -> PyFloat.leb PyFloat.zero (rate r) = true).
Proof.
  rewrite form_records_run. cbn. intros (records & [= <-] & Hr).
  apply list_elem_of_omap in Hr as (parts & _ & Hacc).
  apply accepted_valid in Hacc as (? & ? & Hh & Hr & ?).
  repeat split; try done; intros; by apply not_negative_not_nan.
Qed.


Lemma elem_of_row_diags rate_column (rows : list (gmap string string)) x : forall start,
  x ∈ row_diags start rate_column rows <->
  exists i parts, rows !! i = Some parts /\ row_outcome rate_column parts = RowBad
                  /\ x = DiagBadRow (start + i).
Proof.
  induction rows as [|p rows IH]; intros start; cbn [row_diags].
  - split; [by intros ?%not_elem_of_nil|]. by intros (i & parts & ? & _).
  - rewrite elem_of_app, IH. split.
    + intros [Hx|(i & parts & Hi & Hbad & ->)].
      * destruct (row_outcome rate_column p) eqn:Hp;
          try by apply not_elem_of_nil in Hx.
        apply list_elem_of_singleton in Hx as ->.
        exists 0%nat, p. by rewrite Nat.add_0_r.
      * exists (S i), parts. repeat split; [done..|]. f_equal. lia.
    + intros ([|i] & parts & Hi & Hbad & ->).
      * left. injection Hi as ->. rewrite Hbad, Nat.add_0_r. by left.
      * right. exists i, parts. repeat split; [done..|]. f_equal. lia.
Qed.

Lemma omap_line_record_filter rate_column header (data : list string) :
  omap (line_record rate_column header) (filter (well_formed header) data) =
    omap (line_record rate_column header) data.
Proof.
  induction data as [|line data IH]; [done|].
  rewrite filter_cons.
  destruct (decide (well_formed header line)) as [Hwf|Hwf];
    cbn [omap list_omap]; rewrite IH; [done|].
  unfold line_record at 2. by rewrite decide_False by done.
Qed.

Lemma length_omap_le {A B} (f : A -> option B) (l : list A) :
  (length (omap f l) <= length l)%nat.
Proof.
  induction l as [|a l IH]; [done|]. cbn.
  destruct (f a); cbn; lia.
Qed.

(** ** Column widths and number formats *)

Lemma col_width_loop (g : rec -> nat) (recs : list rec) : forall init,
  let w := foldl (fun w r => Nat.max w (g r)) init recs in
  (init <= w)%nat
  /\ (forall r, r ∈ recs -> (g r <= w)%nat)
  /\ (w = init \/ exists r, r ∈ recs /\ w = g r).
Proof.
  induction recs as [|r recs IH]; intros init; cbn [foldl].
  - split; [done|]. split; [by intros r ?%not_elem_of_nil|by left].
  - destruct (IH (Nat.max init (g r))) as (Hinit & Hall & Hmax).
    cbv zeta. split; [lia|]. split.
    + intros r' [->|Hr']%elem_of_cons; [lia|by apply Hall].
    + destruct Hmax as [Hmax|(r' & Hr' & Hmax)].
      * destruct (Nat.max_spec init (g r)) as [[_ Heq]|[_ Heq]].
        -- right. exists r. split; [by left|]. congruence.
        -- left. congruence.
      * right. exists r'. split; [by right|done].
Qed.

(** Rounding to the nearest integer, ties to even: the result is within
    half a unit of the quotient, and even when exactly half a unit away. *)
Lemma round_half_even_div_spec num den :
  0 < den ->
  let q := PyFloat.round_half_even_div num den in
  2 * Z.abs (num - q * den) <= den
  /\ (2 * Z.abs (num - q * den) = den -> Z.even q = true).
Proof.
  intros Hden. unfold PyFloat.round_half_even_div. cbv zeta.
  pose proof (Z.div_mod num den ltac:(lia)) as Hdm.
  pose proof (Z.mod_pos_bound num den Hden) as Hmod.
  set (q0 := num / den) in *. set (r := num mod den) in *.
  clearbody q0 r. subst num.
  destruct (Z.compare_spec (2 * r) den) as [Hcmp|Hcmp|Hcmp].
  - destruct (Z.even q0) eqn:Heven.
    + replace (den * q0 + r - q0 * den) with r by ring. split; [lia|done].
    + replace (den * q0 + r - (q0 + 1) * den) with (r - den) by ring.
      split; [lia|]. intros _. by rewrite Z.even_add, Heven.
  - replace (den * q0 + r - q0 * den) with r by ring. split; lia.
  - replace (den * q0 + r - (q0 + 1) * den) with (r - den) by ring. split; lia.
Qed.

Lemma round_half_even_div_nonneg num den :
  0 <= num -> 0 < den -> 0 <= PyFloat.round_half_even_div num den.
Proof.
  intros Hnum Hden. unfold PyFloat.round_half_even_div.
  pose proof (Z.div_pos num den Hnum Hden).
  destruct (_ ?= _); [destruct (Z.even _)|..]; lia.
Qed.

Lemma scaled_round_nonneg n m e : 0 <= PyFloat.scaled_round n m e.
Proof.
  unfold PyFloat.scaled_round. destruct (0 <=? e) eqn:He.
  - apply Z.leb_le in He.
    pose proof (Z.pow_nonneg 2 e ltac:(lia)).
    pose proof (Z.pow_nonneg 10 (Z.of_nat n) ltac:(lia)). nia.
  - apply Z.leb_gt in He.
    apply round_half_even_div_nonneg.
    + pose proof (Z.pow_nonneg 10 (Z.of_nat n) ltac:(lia)). nia.
    + apply Z.pow_pos_nonneg; lia.
Qed.

Lemma digit_char_is_digit d : (d < 10)%N -> PyStr.is_digit (PyStr.digit_char d) = true.
Proof.
  intros Hd.
  assert (Hcases : d = 0%N \/ d = 1%N \/ d = 2%N \/ d = 3%N \/ d = 4%N
                   \/ d = 5%N \/ d = 6%N \/ d = 7%N \/ d = 8%N \/ d = 9%N) by lia.
  by destruct Hcases as [->|[->|[->|[->|[->|[->|[->|[->|[->| ->]]]]]]]]].
Qed.

Lemma all_digits_digits_go fuel : forall n acc,
  all_digits acc = true -> all_digits (PyStr.digits_go fuel n acc) = true.
Proof.
  induction fuel as [|fuel IH]; intros n acc Hacc; cbn [PyStr.digits_go]; [done|].
  assert (Hacc' : all_digits (String (PyStr.digit_char (n mod 10)%N) acc) = true).
  { cbn [all_digits]. rewrite Hacc, digit_char_is_digit; [done|].
    apply N.mod_lt. lia. }
  destruct (n <? 10)%N; [done|]. by apply IH.
Qed.

Lemma digits_go_nonempty fuel n acc :
  PyStr.digits_go (S fuel) n acc ≠ "".
Proof.
  revert n acc. induction fuel as [|fuel IH]; intros n acc.
  - cbn. by destruct (n <? 10)%N.
  - cbn [PyStr.digits_go]. destruct (n <? 10)%N; [done|]. apply IH.
Qed.

(** The decimal text of a natural number: digits, at least one. *)
Lemma str_of_N_digits n :
  all_digits (PyStr.str_of_N n) = true /\ PyStr.str_of_N n ≠ "".
Proof.
  unfold PyStr.str_of_N. split.
  - by apply all_digits_digits_go.
  - apply digits_go_nonempty.
Qed.

(** [.2f] of a finite float: an optional minus sign, at least one
    digit, a point, and exactly two digits. *)
Lemma format_f_2_finite x :
  PyFloat.is_finite x = true ->
  exists (s : bool) ip d1 d2,
    PyFloat.format_f 2 x
      = PyFloat.sign_str s +:+ ip +:+ String "." (String d1 (String d2 ""))
    /\ ip ≠ "" /\ all_digits ip = true
    /\ PyStr.is_digit d1 = true /\ PyStr.is_digit d2 = true.
Proof.
  assert (Hfixed : forall q, 0 <= q ->
    exists ip d1 d2,
      PyFloat.fixed_digits 2 q = ip +:+ String "." (String d1 (String d2 ""))
      /\ ip ≠ "" /\ all_digits ip = true
      /\ PyStr.is_digit d1 = true /\ PyStr.is_digit d2 = true).
  { intros q Hq. unfold PyFloat.fixed_digits. cbn [PyFloat.frac_digits].
    assert (Hip : 0 <= q / 10 ^ Z.of_nat 2) by (apply Z.div_pos; lia).
    eexists _, _, _. split; [reflexivity|].
    assert (Hstr : PyStr.str_of_Z (q / 10 ^ Z.of_nat 2)
                   = PyStr.str_of_N (Z.to_N (q / 10 ^ Z.of_nat 2))).
    { unfold PyStr.str_of_Z. destruct (q / 10 ^ Z.of_nat 2); [done..|lia]. }
    rewrite Hstr.
    destruct (str_of_N_digits (Z.to_N (q / 10 ^ Z.of_nat 2))) as [? ?].
    repeat split; try done; apply digit_char_is_digit.
    - pose proof (Z.mod_pos_bound (q mod 10 ^ Z.of_nat 2 / 10) 10 ltac:(lia)). lia.
    - pose proof (Z.mod_pos_bound (q mod 10 ^ Z.of_nat 2) 10 ltac:(lia)). lia. }
  destruct x as [s|s| |s m e]; try discriminate; intros _.
  - destruct (Hfixed 0 ltac:(lia)) as (ip & d1 & d2 & Heq & ?).
    exists s, ip, d1, d2. split; [|done]. cbn [PyFloat.format_f]. by rewrite Heq.
  - destruct (Hfixed (PyFloat.scaled_round 2 m e) (scaled_round_nonneg _ _ _))
      as (ip & d1 & d2 & Heq & ?).
    exists s, ip, d1, d2. split; [|done]. cbn [PyFloat.format_f]. by rewrite Heq.
Qed.

(** A left-justified field begins with the whole text. *)
Lemma ljust_prefix w s :
  PyStr.ljust w s = s +:+ PyStr.replicate_char (w - String.length s) " ".
Proof. reflexivity. Qed.

(** * The claims *)

(** C1 (fails on NaN): a record emitted by [form_records], and by
    [read_and_validate_file], does not always satisfy [hours >= 0] and
    [payout == hours * rate]. The row with [hours_worked] equal to the
    text [nan] parses, is not below zero, and is emitted with NaN hours and
    a NaN payout. *)
Theorem form_records_emits_nan_hours :
  exists r,
    form_records [nan_row] "rate" empty_world = (empty_world, inr [r])
    /\ read_and_validate_file nan_fs "t.csv" RATE_COLUMNS empty_world
       = (empty_world, inr [r])
    /\ name r = "Dan" /\ department r = "HR"
    /\ hours r = PyFloat.nan
    /\ PyFloat.leb PyFloat.zero (hours r) = false
    /\ PyFloat.eqb (payout r) (PyFloat.mul (hours r) (rate r)) = false.
Proof.
  eexists. split; [vm_compute; reflexivity|]. by vm_compute.
Qed.

(** C2 (as stated, refuted): with the header
    [...,hours_worked,rate,salary] the first candidate in header order
    is [rate], but iterating the candidate set as [salary, rate,
    hourly_rate] the loader selects [salary]; iterating it as
    [hourly_rate, rate, salary] it selects [rate]: the same file resolves
    to different rate columns for the same set of candidates. *)
Lemma rate_column_not_first_in_header_order :
  (list_to_set salary_first : gset string) = list_to_set RATE_COLUMNS
  /\ first_rate_column_in_header_order salary_first (fields two_rates_header)
     = Some "rate"
  /\ select_rate_column salary_first (fields two_rates_header) = Some "salary"
  /\ select_rate_column RATE_COLUMNS (fields two_rates_header) = Some "rate"
  /\ map (fun r => PyFloat.repr (rate r))
         (file_records two_rates_fs salary_first "t.csv") = ["70.0"]
  /\ map (fun r => PyFloat.repr (rate r))
         (file_records two_rates_fs RATE_COLUMNS "t.csv") = ["50.0"]
  /\ ~ (forall keys header : list string,
          (list_to_set keys : gset string) = list_to_set RATE_COLUMNS ->
          select_rate_column keys header
            = first_rate_column_in_header_order keys header).
Proof.
  do 6 (split; [by vm_compute|]).
  intros Hclaim.
  specialize (Hclaim salary_first (fields two_rates_header)).
  assert (Hset : (list_to_set salary_first : gset string) = list_to_set RATE_COLUMNS)
    by (by vm_compute).
  apply Hclaim in Hset. vm_compute in Hset. discriminate.
Qed.

(** C2 (amended): when the header has all the required columns and at
    least one candidate, the loader selects the candidate that comes first
    in the iteration order of the candidate set among those present in the
    header, whatever their order in the header, and builds every record
    with it. The selection is a function of the header and of that
    iteration order. *)
Theorem rate_column_first_in_iteration_order
    (fs : filesystem) (filepath : string) (rate_columns : list string)
    (line0 : string) (data : list string) (w : world) :
  fs !! filepath = Some (line0 :: data) ->
  Forall (fun col => col ∈ fields line0) REQUIRED_COLUMNS ->
  Exists (fun k => k ∈ fields line0) rate_columns ->
  "" ∉ rate_columns ->
  exists pre c post,
    rate_columns = pre ++ c :: post
    /\ c ∈ fields line0
    /\ Forall (fun k => k ∉ fields line0) pre
    /\ select_rate_column rate_columns (fields line0) = Some c
    /\ (read_and_validate_file fs filepath rate_columns w).2 =
         inr (omap (line_record c (fields line0)) data).
Proof.
  intros Hfile Hreq Hrate Hne.
  destruct (select_rate_column rate_columns (fields line0)) as [c|] eqn:Hsel.
  - pose proof Hsel as (pre & post & Hkeys & Hc & Hpre)%select_rate_column_Some.
    exists pre, c, post. repeat split; try done.
    rewrite read_and_validate_file_run, Hfile. cbv zeta.
    rewrite (proj2 (first_missing_None _)), Hsel
      by (intros col Hcol; by eapply Forall_forall in Hreq).
    destruct c as [|a c].
    + exfalso. apply Hne. rewrite Hkeys. apply elem_of_app. right. by left.
    + cbn. by rewrite omap_loaded_rows.
  - apply select_rate_column_None in Hsel.
    apply Exists_exists in Hrate as (k & Hk & Hin).
    eapply Forall_forall in Hsel; [|exact Hk]. done.
Qed.

Lemma rate_column_first_in_iteration_order_witness :
  two_rates_fs !! "t.csv" = Some [two_rates_header; "1,a,Alice,HR,10,50,70" +:+ NL]
  /\ Forall (fun col => col ∈ fields two_rates_header) REQUIRED_COLUMNS
  /\ Exists (fun k => k ∈ fields two_rates_header) salary_first
  /\ ("" ∉ salary_first)
  /\ exists pre c post,
       salary_first = pre ++ c :: post
       /\ c ∈ fields two_rates_header
       /\ Forall (fun k => k ∉ fields two_rates_header) pre
       /\ select_rate_column salary_first (fields two_rates_header) = Some c
       /\ (read_and_validate_file two_rates_fs "t.csv" salary_first empty_world).2 =
            inr (omap (line_record c (fields two_rates_header))
                      ["1,a,Alice,HR,10,50,70" +:+ NL]).
Proof.
  assert (H1 : two_rates_fs !! "t.csv"
               = Some [two_rates_header; "1,a,Alice,HR,10,50,70" +:+ NL])
    by reflexivity.
  assert (H2 : Forall (fun col => col ∈ fields two_rates_header) REQUIRED_COLUMNS)
    by (apply (bool_decide_unpack _); vm_compute; exact I).
  assert (H3 : Exists (fun k => k ∈ fields two_rates_header) salary_first)
    by (apply (bool_decide_unpack _); vm_compute; exact I).
  assert (H4 : "" ∉ salary_first)
    by (apply (bool_decide_unpack _); vm_compute; exact I).
  exact (conj H1 (conj H2 (conj H3 (conj H4
           (rate_column_first_in_iteration_order
              two_rates_fs "t.csv" salary_first two_rates_header _ empty_world
              H1 H2 H3 H4))))).
Defined.

(** C3: for the files [F1], [F2] given in that order, the merged list
    holds the records of [F1], then those of [F2]; the records of a file
    are made of its data lines one by one, in the order of the lines; the
    payout report prints the blocks, and the mean-rate report the lines,
    of the departments in order of first occurrence in the merged list,
    each block holding its records in the order of the merged list. *)
Theorem merge_and_group_in_input_order
    (py_sum : list PyFloat.float -> PyFloat.float)
    (fs : filesystem) (rate_columns : list string) (F1 F2 : string) (w : world) :
  let all_records :=
    file_records fs rate_columns F1 ++ file_records fs rate_columns F2 in
  let w' := loaded_world fs rate_columns [F1; F2] w in
  load_files fs rate_columns [F1; F2] w = (w', inr all_records)
  /\ (forall F,
        file_records fs rate_columns F = []
        \/ exists line0 data c,
             fs !! F = Some (line0 :: data)
             /\ file_records fs rate_columns F =
                  omap (line_record c (fields line0)) data)
  /\ group_by_department (fun r => r) all_records =
       map (fun dept => (dept, filter (fun r => department r = dept) all_records))
           (first_seen (map department all_records))
  /\ group_by_department rate all_records =
       map (fun dept =>
              (dept, map rate (filter (fun r => department r = dept) all_records)))
           (first_seen (map department all_records))
  /\ main py_sum fs rate_columns (mkNamespace [F1; F2] "payout") w =
       (emit (map Text (printed (concat (map block_actions
                 (group_by_department (fun r => r) all_records))))) w',
        outcome (concat (map block_actions
                 (group_by_department (fun r => r) all_records))))
  /\ main py_sum fs rate_columns (mkNamespace [F1; F2] "mean_rate_department") w =
       (emit (map Text (mean_rate_heading
                        ++ map (mean_rate_line py_sum)
                               (group_by_department rate all_records))) w',
        inr tt).
Proof.
  cbv zeta. split; [|split; [|split; [|split; [|split]]]].
  - rewrite load_files_run. cbn [map concat]. by rewrite app_nil_r.
  - intros F. unfold file_records, file_run.
    rewrite read_and_validate_file_run.
    destruct (fs !! F) as [[|line0 data]|]; cbn; [by left..| |by left].
    destruct (first_missing (fields line0)); cbn; [by left|].
    destruct (select_rate_column rate_columns (fields line0)) as [[|a c]|];
      cbn; [by left| |by left].
    right. exists line0, data, (String a c). split; [done|].
    apply omap_loaded_rows.
  - rewrite group_by_department_groups. unfold department_groups.
    apply map_ext. intros dept. by rewrite map_id.
  - by rewrite group_by_department_groups.
  - rewrite main_run. cbn [files report map concat]. rewrite app_nil_r.
    rewrite bool_decide_eq_true_2 by done.
    rewrite generate_payout_report_run. unfold payout_actions.
    by rewrite group_by_department_groups.
  - rewrite main_run. cbn [files report map concat]. rewrite app_nil_r.
    rewrite bool_decide_eq_false_2 by done.
    rewrite bool_decide_eq_true_2 by done.
    rewrite generate_mean_rate_report_run.
    by rewrite group_by_department_groups.
Qed.

(** C4: when the report kind is neither [payout] nor
    [mean_rate_department], [main] ends with [sys.exit(1)], a non-zero exit
    status, after writing the message that the report type is not
    implemented to standard error; standard output receives the
    diagnostics of the loading only, no line of a report. *)
Theorem unsupported_report_kind_fails
    (py_sum : list PyFloat.float -> PyFloat.float)
    (fs : filesystem) (rate_columns : list string) (args : Namespace) (w : world) :
  report args ≠ "payout" ->
  report args ≠ "mean_rate_department" ->
  exists w' diags errors,
    main py_sum fs rate_columns args w = (w', inl (SystemExit 1))
    /\ exit_status (main py_sum fs rate_columns args w).2 = 1
    /\ stderr w' = stderr w ++ errors ++ [ReportNotImplemented]
    /\ stdout w' = stdout w ++ diags
    /\ Forall is_diagnostic diags.
Proof.
  intros Hpayout Hmean.
  exists (mkWorld (stdout (loaded_world fs rate_columns (files args) w))
                  (stderr (loaded_world fs rate_columns (files args) w)
                   ++ [ReportNotImplemented])),
         (concat (map (file_diags fs rate_columns) (files args))),
         (concat (map (file_errors fs rate_columns) (files args))).
  rewrite main_run. cbv zeta. rewrite !bool_decide_eq_false_2 by done.
  repeat split.
  - cbn. by rewrite <- app_assoc.
  - apply Forall_concat, Forall_forall. intros ds Hds.
    apply list_elem_of_fmap in Hds as (F & -> & _).
    apply file_diags_diagnostic.
Qed.

Lemma unsupported_report_kind_fails_witness :
  "unsupported" ≠ "payout"
  /\ "unsupported" ≠ "mean_rate_department"
  /\ exists w' diags errors,
       main sum_plain mismatch_fs RATE_COLUMNS
            (mkNamespace ["mismatch.csv"] "unsupported") empty_world
         = (w', inl (SystemExit 1))
       /\ exit_status (main sum_plain mismatch_fs RATE_COLUMNS
                            (mkNamespace ["mismatch.csv"] "unsupported")
                            empty_world).2 = 1
       /\ stderr w' = stderr empty_world ++ errors ++ [ReportNotImplemented]
       /\ stdout w' = stdout empty_world ++ diags
       /\ Forall is_diagnostic diags.
Proof.
  assert (H1 : "unsupported" ≠ "payout") by discriminate.
  assert (H2 : "unsupported" ≠ "mean_rate_department") by discriminate.
  exact (conj H1 (conj H2
           (unsupported_report_kind_fails sum_plain mismatch_fs RATE_COLUMNS
              (mkNamespace ["mismatch.csv"] "unsupported") empty_world H1 H2))).
Defined.

(** C5 (fails for the parse diagnostics): in a file whose line 2 has
    too few fields and whose line 3 has hours that are not a number, the
    diagnostic for the line with too few fields reports line 2, and the
    diagnostic for the row that fails to parse reports line 2 as well,
    although that row is on line 3 of the file. *)
Theorem bad_row_line_number_drifts :
  drift_fs !! "t.csv" = Some [sample_header; short_line; bad_hours_line]
  /\ ~ well_formed (fields sample_header) short_line
  /\ row_outcome "rate" (dict_of_zip (fields sample_header) (fields bad_hours_line))
     = RowBad
  /\ read_and_validate_file drift_fs "t.csv" RATE_COLUMNS empty_world =
       (mkWorld [DiagColumnMismatch 2 "t.csv"; DiagBadRow 2] [], inr []).
Proof.
  split; [reflexivity|]. split; [by vm_compute|]. by vm_compute.
Qed.

(** C8: in a file with a valid header, a data line whose number of
    fields differs from the header's is reported on standard output with
    its line number and yields no record; the file is not aborted: the
    result is that of the file without those lines, every well-formed
    line that passes the validation has its record in the result, and the
    number of records is at most the number of well-formed lines. *)
Theorem mismatched_lines_are_skipped
    (fs : filesystem) (filepath : string) (rate_columns : list string)
    (line0 : string) (data : list string) (rate_column : string) (w : world) :
  fs !! filepath = Some (line0 :: data) ->
  Forall (fun col => col ∈ fields line0) REQUIRED_COLUMNS ->
  select_rate_column rate_columns (fields line0) = Some rate_column ->
  rate_column ≠ "" ->
  exists w' records,
    read_and_validate_file fs filepath rate_columns w = (w', inr records)
    /\ records = omap (line_record rate_column (fields line0))
                      (filter (well_formed (fields line0)) data)
    /\ (forall i line,
          data !! i = Some line -> ~ well_formed (fields line0) line ->
          line_record rate_column (fields line0) line = None
          /\ DiagColumnMismatch (2 + i) filepath ∈ stdout w')
    /\ (forall line r,
          line ∈ data -> well_formed (fields line0) line ->
          accepted rate_column (dict_of_zip (fields line0) (fields line)) = Some r ->
          r ∈ records)
    /\ (length records <= length (filter (well_formed (fields line0)) data))%nat
    /\ (read_and_validate_file
          (<[filepath := line0 :: filter (well_formed (fields line0)) data]> fs)
          filepath rate_columns w).2 = inr records.
Proof.
  intros Hfile Hreq Hsel Hne.
  assert (Hmissing : first_missing (fields line0) = None).
  { apply first_missing_None. intros col Hcol.
    by eapply Forall_forall in Hreq. }
  destruct rate_column as [|a c]; [done|].
  eexists _, _. split.
  { rewrite read_and_validate_file_run, Hfile. cbv zeta.
    rewrite Hmissing, Hsel. reflexivity. }
  rewrite omap_loaded_rows.
  split; [by rewrite omap_line_record_filter|].
  split; [|split; [|split]].
  - intros i line Hi Hwf. split.
    + unfold line_record. by rewrite decide_False.
    + cbn. apply elem_of_app. right. apply elem_of_app. left.
      apply elem_of_mismatch_diags. by exists i, line.
  - intros line r Hline Hwf Hacc.
    apply list_elem_of_omap. exists line. split; [done|].
    unfold line_record. by rewrite decide_True.
  - rewrite <- omap_line_record_filter. apply length_omap_le.
  - rewrite read_and_validate_file_run. unfold filesystem in *.
    rewrite lookup_insert_eq. cbv zeta.
    rewrite Hmissing, Hsel. cbn.
    by rewrite omap_loaded_rows, omap_line_record_filter.
Qed.

Lemma mismatched_lines_are_skipped_witness :
  mismatch_fs !! "mismatch.csv"
    = Some [sample_header; "1,test,Alice,Marketing,40" +:+ NL; "2,test,Bob,Sales,35,55"]
  /\ Forall (fun col => col ∈ fields sample_header) REQUIRED_COLUMNS
  /\ select_rate_column RATE_COLUMNS (fields sample_header) = Some "rate"
  /\ "rate" ≠ ""
  /\ exists w' records,
       read_and_validate_file mismatch_fs "mismatch.csv" RATE_COLUMNS empty_world
         = (w', inr records)
       /\ records = omap (line_record "rate" (fields sample_header))
                         (filter (well_formed (fields sample_header))
                            ["1,test,Alice,Marketing,40" +:+ NL; "2,test,Bob,Sales,35,55"])
       /\ (forall i line,
             ["1,test,Alice,Marketing,40" +:+ NL; "2,test,Bob,Sales,35,55"] !! i
               = Some line ->
             ~ well_formed (fields sample_header) line ->
             line_record "rate" (fields sample_header) line = None
             /\ DiagColumnMismatch (2 + i) "mismatch.csv" ∈ stdout w')
       /\ (forall line r,
             line ∈ ["1,test,Alice,Marketing,40" +:+ NL; "2,test,Bob,Sales,35,55"] ->
             well_formed (fields sample_header) line ->
             accepted "rate" (dict_of_zip (fields sample_header) (fields line)) = Some r ->
             r ∈ records)
       /\ (length records
           <= length (filter (well_formed (fields sample_header))
                        ["1,test,Alice,Marketing,40" +:+ NL; "2,test,Bob,Sales,35,55"]))%nat
       /\ (read_and_validate_file
             (<["mismatch.csv" :=
                  sample_header
                  :: filter (well_formed (fields sample_header))
                       ["1,test,Alice,Marketing,40" +:+ NL; "2,test,Bob,Sales,35,55"]]>
                mismatch_fs)
             "mismatch.csv" RATE_COLUMNS empty_world).2 = inr records.
Proof.
  assert (H1 : mismatch_fs !! "mismatch.csv"
               = Some [sample_header; "1,test,Alice,Marketing,40" +:+ NL;
                       "2,test,Bob,Sales,35,55"]) by reflexivity.
  assert (H2 : Forall (fun col => col ∈ fields sample_header) REQUIRED_COLUMNS)
    by (apply (bool_decide_unpack _); vm_compute; exact I).
  assert (H3 : select_rate_column RATE_COLUMNS (fields sample_header) = Some "rate")
    by (vm_compute; reflexivity).
  assert (H4 : "rate" ≠ "") by discriminate.
  exact (conj H1 (conj H2 (conj H3 (conj H4
           (mismatched_lines_are_skipped mismatch_fs "mismatch.csv" RATE_COLUMNS
              sample_header _ "rate" empty_world H1 H2 H3 H4))))).
Defined.

(** The test [test_file_with_column_mismatch]: one record, Bob's. *)
Example mismatch_file_records :
  map name (file_records mismatch_fs RATE_COLUMNS "mismatch.csv") = ["Bob"]
  /\ file_diags mismatch_fs RATE_COLUMNS "mismatch.csv"
     = [DiagColumnMismatch 2 "mismatch.csv"].
Proof. by vm_compute. Qed.

(** C9: loading an existing file without any line, or with a valid
    header line and no data line, returns the empty list, raises nothing
    and prints nothing. *)
Theorem empty_or_header_only_file_loads_nothing
    (fs : filesystem) (filepath : string) (rate_columns : list string)
    (lines : list string) (w : world) :
  fs !! filepath = Some lines ->
  (lines = []
   \/ exists line0,
        lines = [line0]
        /\ Forall (fun col => col ∈ fields line0) REQUIRED_COLUMNS
        /\ Exists (fun k => k ∈ fields line0) rate_columns
        /\ "" ∉ rate_columns) ->
  read_and_validate_file fs filepath rate_columns w = (w, inr []).
Proof.
  intros Hfile [->|(line0 & -> & Hreq & Hrate & Hne)];
    rewrite read_and_validate_file_run, Hfile; [done|].
  cbv zeta.
  rewrite (proj2 (first_missing_None _))
    by (intros col Hcol; by eapply Forall_forall in Hreq).
  destruct (select_rate_column rate_columns (fields line0)) as [c|] eqn:Hsel.
  - pose proof Hsel as (pre & post & Hkeys & _)%select_rate_column_Some.
    destruct c as [|a c].
    + exfalso. apply Hne. rewrite Hkeys. apply elem_of_app. right. by left.
    + cbn. by rewrite emit_nil.
  - apply select_rate_column_None in Hsel.
    apply Exists_exists in Hrate as (k & Hk & Hin).
    eapply Forall_forall in Hsel; [|exact Hk]. done.
Qed.

Lemma empty_or_header_only_file_loads_nothing_witness :
  (empty_fs !! "empty.csv" = Some []
   /\ read_and_validate_file empty_fs "empty.csv" RATE_COLUMNS empty_world
      = (empty_world, inr []))
  /\ (header_only_fs !! "header_only.csv" = Some [sample_header]
      /\ Forall (fun col => col ∈ fields sample_header) REQUIRED_COLUMNS
      /\ Exists (fun k => k ∈ fields sample_header) RATE_COLUMNS
      /\ ("" ∉ RATE_COLUMNS)
      /\ read_and_validate_file header_only_fs "header_only.csv" RATE_COLUMNS
           empty_world = (empty_world, inr [])).
Proof.
  assert (H0 : empty_fs !! "empty.csv" = Some []) by reflexivity.
  assert (H1 : header_only_fs !! "header_only.csv" = Some [sample_header])
    by reflexivity.
  assert (H2 : Forall (fun col => col ∈ fields sample_header) REQUIRED_COLUMNS)
    by (apply (bool_decide_unpack _); vm_compute; exact I).
  assert (H3 : Exists (fun k => k ∈ fields sample_header) RATE_COLUMNS)
    by (apply (bool_decide_unpack _); vm_compute; exact I).
  assert (H4 : "" ∉ RATE_COLUMNS)
    by (apply (bool_decide_unpack _); vm_compute; exact I).
  exact (conj
           (conj H0
              (empty_or_header_only_file_loads_nothing empty_fs "empty.csv"
                 RATE_COLUMNS [] empty_world H0 (or_introl eq_refl)))
           (conj H1 (conj H2 (conj H3 (conj H4
              (empty_or_header_only_file_loads_nothing header_only_fs
                 "header_only.csv" RATE_COLUMNS [sample_header] empty_world H1
                 (or_intror (ex_intro _ sample_header
                               (conj eq_refl (conj H2 (conj H3 H4))))))))))).
Defined.

(** C10: the names of the header are compared as they stand after the
    line as a whole was stripped. When a required column occurs in the
    header only as a field with blanks around it, loading raises the error
    of a missing required column, for the first required column that is
    not literally a field, and prints nothing. *)
Theorem untrimmed_required_column_is_missing
    (fs : filesystem) (filepath : string) (rate_columns : list string)
    (line0 : string) (data : list string) (col : string) (w : world) :
  fs !! filepath = Some (line0 :: data) ->
  col ∈ REQUIRED_COLUMNS ->
  (exists f, f ∈ fields line0 /\ PyStr.strip f = col) ->
  col ∉ fields line0 ->
  exists col',
    first_missing (fields line0) = Some col'
    /\ col' ∈ REQUIRED_COLUMNS /\ (col' ∉ fields line0)
    /\ read_and_validate_file fs filepath rate_columns w =
         (w, inl (ValueError (MissingRequiredColumn col' filepath))).
Proof.
  intros Hfile Hcol _ Hmissing.
  destruct (first_missing (fields line0)) as [col'|] eqn:Hfirst.
  - exists col'. pose proof (first_missing_Some _ _ Hfirst) as [? ?].
    repeat split; try done.
    rewrite read_and_validate_file_run, Hfile. cbv zeta. by rewrite Hfirst.
  - exfalso. apply Hmissing. by eapply first_missing_None.
Qed.

Lemma untrimmed_required_column_is_missing_witness :
  spaced_header_fs !! "t.csv" = Some [spaced_header; "1,a,Alice,HR,40,50" +:+ NL]
  /\ "email" ∈ REQUIRED_COLUMNS
  /\ (exists f, f ∈ fields spaced_header /\ PyStr.strip f = "email")
  /\ ("email" ∉ fields spaced_header)
  /\ exists col',
       first_missing (fields spaced_header) = Some col'
       /\ col' ∈ REQUIRED_COLUMNS /\ (col' ∉ fields spaced_header)
       /\ read_and_validate_file spaced_header_fs "t.csv" RATE_COLUMNS empty_world =
            (empty_world, inl (ValueError (MissingRequiredColumn col' "t.csv"))).
Proof.
  assert (H1 : spaced_header_fs !! "t.csv"
               = Some [spaced_header; "1,a,Alice,HR,40,50" +:+ NL]) by reflexivity.
  assert (H2 : "email" ∈ REQUIRED_COLUMNS)
    by (apply (bool_decide_unpack _); vm_compute; exact I).
  assert (H3 : exists f, f ∈ fields spaced_header /\ PyStr.strip f = "email").
  { exists " email". split; [|reflexivity].
    apply (bool_decide_unpack _). vm_compute. exact I. }
  assert (H4 : "email" ∉ fields spaced_header)
    by (apply (bool_decide_unpack _); vm_compute; exact I).
  exact (conj H1 (conj H2 (conj H3 (conj H4
           (untrimmed_required_column_is_missing spaced_header_fs "t.csv"
              RATE_COLUMNS spaced_header _ "email" empty_world H1 H2 H3 H4))))).
Defined.

(** The header of the example: the error names [email]. *)
Example spaced_header_error :
  read_and_validate_file spaced_header_fs "t.csv" RATE_COLUMNS empty_world =
    (empty_world, inl (ValueError (MissingRequiredColumn "email" "t.csv"))).
Proof. by vm_compute. Qed.

(** C6 (defect of the code): the width of a column is measured on the
    [.0f] text of a float, while the cell prints [str] of the float
    (hours, rate) or [$] and [int] of it (payout); a printed cell can then
    be wider than its column, and the width is not the greatest rendered
    width. For the data line [1,a,Alice,HR,40,100] the rate column is 4
    wide, measured on [100], and the cell [100.0] has 5 characters, so the
    payout cell of the row starts one character to the right of its
    header. For the data line [3,t,Carl,Sales,999999.5,2] the payout
    column is 7 wide and the cell [$1999999] has 8 characters; the hours
    are measured on [1000000] ([.0f] rounds to even, it does not
    truncate) and printed as [999999.5]. The name column, whose values
    are measured as they are printed, always holds its cells. *)
Theorem rendered_cell_wider_than_column :
  file_records hundred_fs RATE_COLUMNS "t.csv" = [alice]
  /\ col_width [alice] Rate = 4%nat
  /\ width_text (getcol alice Rate) = "100"
  /\ cell_value alice Rate empty_world = (empty_world, inr "100.0")
  /\ String.length "100.0" = 5%nat
  /\ main sum_plain hundred_fs RATE_COLUMNS (mkNamespace ["t.csv"] "payout")
          empty_world =
       (mkWorld [Text (NL +:+ "HR");
                 Text ("name " +:+ TAB +:+ "hours" +:+ TAB +:+ "rate" +:+ TAB +:+ "payout");
                 Text ("-----" +:+ TAB +:+ "-----" +:+ TAB +:+ "----" +:+ TAB +:+ "------");
                 Text ("Alice" +:+ TAB +:+ "40.0 " +:+ TAB +:+ "100.0" +:+ TAB +:+ "$4000 ")]
                [],
        inr tt)
  /\ file_records wide_fs RATE_COLUMNS "t.csv" = [carl]
  /\ col_width [carl] Payout = 7%nat
  /\ cell_value carl Payout empty_world = (empty_world, inr "$1999999")
  /\ String.length "$1999999" = 8%nat
  /\ col_width [carl] Hours = 7%nat
  /\ width_text (getcol carl Hours) = "1000000"
  /\ PyFloat.to_int (hours carl) = inr 999999
  /\ PyStr.str_of_Z 999999 = "999999"
  /\ cell_value carl Hours empty_world = (empty_world, inr "999999.5")
  /\ (generate_payout_report [carl] empty_world).1 =
       mkWorld [Text (NL +:+ "Sales");
                Text ("name" +:+ TAB +:+ "hours  " +:+ TAB +:+ "rate" +:+ TAB +:+ "payout ");
                Text ("----" +:+ TAB +:+ "-------" +:+ TAB +:+ "----" +:+ TAB +:+ "-------");
                Text ("Carl" +:+ TAB +:+ "999999.5" +:+ TAB +:+ "2.0 " +:+ TAB +:+ "$1999999")]
               []
  /\ ~ (forall (recs : list rec) (col : column) (r : rec) (v : string),
          r ∈ recs ->
          cell_value r col empty_world = (empty_world, inr v) ->
          (String.length v <= col_width recs col)%nat)
  /\ (forall (recs : list rec) (r : rec) (w : world),
        r ∈ recs ->
        cell_value r Name w = (w, inr (width_text (getcol r Name)))
        /\ (String.length (name r) <= col_width recs Name)%nat).
Proof.
  do 16 (split; [by vm_compute|]).
  split.
  - intros Hclaim.
    assert (Hin : alice ∈ [alice]) by (by left).
    assert (Hcell : cell_value alice Rate empty_world = (empty_world, inr "100.0"))
      by (by vm_compute).
    pose proof (Hclaim [alice] Rate alice "100.0" Hin Hcell) as Hle.
    vm_compute in Hle. lia.
  - intros recs r w Hr. split; [done|].
    destruct (col_width_loop (fun r0 => String.length (width_text (getcol r0 Name)))
                recs (String.length (col_name Name))) as (_ & Hall & _).
    exact (Hall r Hr).
Qed.

(** C7 (as stated, refuted): a department name of eleven characters
    is printed in full, in a field of eleven characters, not cut to
    ten. *)
Lemma long_department_not_truncated :
  (generate_mean_rate_report sum_plain
     (file_records long_dept_fs RATE_COLUMNS "t.csv") empty_world).1 =
    mkWorld [Text (NL +:+ "Department" +:+ TAB +:+ "Mean Rate");
             Text ("----------" +:+ TAB +:+ "---------");
             Text ("Engineering" +:+ TAB +:+ "50.00")] []
  /\ (generate_mean_rate_report sum_compensated
       (file_records long_dept_fs RATE_COLUMNS "t.csv") empty_world).1 =
      mkWorld [Text (NL +:+ "Department" +:+ TAB +:+ "Mean Rate");
               Text ("----------" +:+ TAB +:+ "---------");
               Text ("Engineering" +:+ TAB +:+ "50.00")] []
  /\ String.length (PyStr.ljust 10 "Engineering") = 11%nat
  /\ ~ (forall dept : string, String.length (PyStr.ljust 10 dept) = 10%nat).
Proof.
  do 3 (split; [by vm_compute|]).
  intros Hclaim. specialize (Hclaim "Engineering"). vm_compute in Hclaim.
  discriminate.
Qed.

(** C7 (amended): the mean-rate report prints, after its two heading
    lines, one line per department in order of first occurrence: the name
    left-aligned and padded with blanks on the right to at least 10
    characters (a longer name is printed in full), a tab, and the mean of
    the rates of the department, which is the float [sum] of the rates
    divided by their number (zero for no rate), formatted by [.2f]: for a
    finite mean, digits, a point and exactly two digits. *)
Theorem mean_rate_report_lines
    (py_sum : list PyFloat.float -> PyFloat.float)
    (records : list rec) (w : world) :
  generate_mean_rate_report py_sum records w =
    (emit (map Text
             (mean_rate_heading
              ++ map (fun dept =>
                        PyStr.ljust 10 dept +:+ TAB
                        +:+ PyFloat.format_f 2
                              (mean_rate py_sum (map rate
                                 (filter (fun r => department r = dept) records))))
                     (first_seen (map department records)))) w,
     inr tt)
  /\ (forall dept,
        PyStr.ljust 10 dept
          = dept +:+ PyStr.replicate_char (10 - String.length dept) " "
        /\ String.length (PyStr.ljust 10 dept) = Nat.max 10 (String.length dept))
  /\ (forall rates,
        rates ≠ [] ->
        mean_rate py_sum rates =
          PyFloat.div (py_sum rates) (PyFloat.of_Z (Z.of_nat (length rates))))
  /\ PyFloat.format_f 2 (mean_rate py_sum []) = "0.00"
  /\ (forall x,
        PyFloat.is_finite x = true ->
        exists (s : bool) ip d1 d2,
          PyFloat.format_f 2 x
            = PyFloat.sign_str s +:+ ip +:+ String "." (String d1 (String d2 ""))
          /\ ip ≠ "" /\ all_digits ip = true
          /\ PyStr.is_digit d1 = true /\ PyStr.is_digit d2 = true).
Proof.
  split; [|split; [|split; [|split]]].
  - rewrite generate_mean_rate_report_run. unfold department_groups.
    by rewrite map_map.
  - intros dept. split; [apply ljust_prefix|apply length_ljust].
  - intros [|x rates] Hrates; done.
  - reflexivity.
  - apply format_f_2_finite.
Qed.

(** Scenario A of the specification: [Mktg] with mean [50.00], [Sales]
    with mean [60.00], with either implementation of [sum]. *)
Example scenario_a_mean_rates :
  (generate_mean_rate_report sum_plain
     (file_records scenario_a_fs RATE_COLUMNS "a.csv") empty_world).1 =
    mkWorld [Text (NL +:+ "Department" +:+ TAB +:+ "Mean Rate");
             Text ("----------" +:+ TAB +:+ "---------");
             Text ("Mktg      " +:+ TAB +:+ "50.00");
             Text ("Sales     " +:+ TAB +:+ "60.00")] []
  /\ (generate_mean_rate_report sum_compensated
       (file_records scenario_a_fs RATE_COLUMNS "a.csv") empty_world).1 =
      (generate_mean_rate_report sum_plain
         (file_records scenario_a_fs RATE_COLUMNS "a.csv") empty_world).1.
Proof. by vm_compute. Qed.

(** The two implementations of [sum] differ on rounding errors. *)
Example sums_differ :
  PyFloat.repr (sum_plain [float_lit "1e16"; float_lit "1"; float_lit "1"])
    = "1e+16"
  /\ PyFloat.repr (sum_compensated [float_lit "1e16"; float_lit "1"; float_lit "1"])
     = "1.0000000000000002e+16".
Proof. by vm_compute. Qed.

(** * Further properties of the code *)

(** ** The loading loop of [main] *)

(** X1: the loading loop of [main] never raises; a file whose loading
    raises is named with its error on standard error and contributes
    nothing else: the records and the diagnostics are those of the run
    without that file. *)
Theorem failing_file_is_reported_and_skipped
    (fs : filesystem) (rate_columns : list string)
    (before after : list string) (F : string) (e : exn) (w : world) :
  (read_and_validate_file fs F rate_columns empty_world).2 = inl e ->
  exists w',
    load_files fs rate_columns (before ++ F :: after) w
      = (w', inr (all_records fs rate_columns (before ++ after)))
    /\ (load_files fs rate_columns (before ++ after) w).2
       = inr (all_records fs rate_columns (before ++ after))
    /\ stdout w' = stdout (load_files fs rate_columns (before ++ after) w).1
    /\ FileError F e ∈ stderr w'.
Proof.
  intros Hfail. fold (file_run fs rate_columns F) in Hfail.
  assert (Hrecords : file_records fs rate_columns F = []).
  { unfold file_records. by rewrite Hfail. }
  assert (Hdiags : file_diags fs rate_columns F = []).
  { pose proof (read_and_validate_file_frame fs F rate_columns empty_world) as Hframe.
    unfold file_diags. unfold file_run in *.
    rewrite read_and_validate_file_run in Hfail |- *.
    destruct (fs !! F) as [[|line0 data]|]; cbn in *; try done.
    destruct (first_missing (fields line0)); cbn in *; [done|].
    by destruct (select_rate_column rate_columns (fields line0)) as [[|a c]|]. }
  eexists. rewrite !load_files_run. split; [|split; [done|split]].
  - f_equal. f_equal. unfold all_records.
    rewrite !map_app, !concat_app. cbn [map concat]. by rewrite Hrecords.
  - cbn. rewrite !map_app, !concat_app. cbn [map concat]. by rewrite Hdiags.
  - cbn. rewrite map_app, concat_app. cbn [map concat].
    apply elem_of_app. right. apply elem_of_app. right. apply elem_of_app. left.
    unfold file_errors. rewrite Hfail. by left.
Qed.

Lemma failing_file_is_reported_and_skipped_witness :
  (read_and_validate_file mismatch_fs "missing.csv" RATE_COLUMNS empty_world).2
    = inl (FileNotFoundError "missing.csv")
  /\ exists w',
       load_files mismatch_fs RATE_COLUMNS ([] ++ "missing.csv" :: ["mismatch.csv"])
                  empty_world
         = (w', inr (all_records mismatch_fs RATE_COLUMNS ([] ++ ["mismatch.csv"])))
       /\ (load_files mismatch_fs RATE_COLUMNS ([] ++ ["mismatch.csv"]) empty_world).2
          = inr (all_records mismatch_fs RATE_COLUMNS ([] ++ ["mismatch.csv"]))
       /\ stdout w'
          = stdout (load_files mismatch_fs RATE_COLUMNS ([] ++ ["mismatch.csv"])
                               empty_world).1
       /\ FileError "missing.csv" (FileNotFoundError "missing.csv") ∈ stderr w'.
Proof.
  assert (H1 : (read_and_validate_file mismatch_fs "missing.csv" RATE_COLUMNS
                  empty_world).2 = inl (FileNotFoundError "missing.csv"))
    by reflexivity.
  exact (conj H1
           (failing_file_is_reported_and_skipped mismatch_fs RATE_COLUMNS
              [] ["mismatch.csv"] "missing.csv" _ empty_world H1)).
Defined.

(** ** Errors of the header *)

(** X2: when the header has every required column and none of the
    rate-column candidates, loading raises the error of a missing rate
    column, whatever the data lines are, and prints nothing. *)
Theorem missing_rate_column_raises
    (fs : filesystem) (filepath : string) (rate_columns : list string)
    (line0 : string) (data : list string) (w : world) :
  fs !! filepath = Some (line0 :: data) ->
  Forall (fun col => col ∈ fields line0) REQUIRED_COLUMNS ->
  Forall (fun k => k ∉ fields line0) rate_columns ->
  read_and_validate_file fs filepath rate_columns w
    = (w, inl (ValueError (MissingRateColumn filepath))).
Proof.
  intros Hfile Hreq Hnone.
  rewrite read_and_validate_file_run, Hfile. cbv zeta.
  rewrite (proj2 (first_missing_None _))
    by (intros col Hcol; by eapply Forall_forall in Hreq).
  by rewrite (proj2 (select_rate_column_None _ _) Hnone).
Qed.

Lemma missing_rate_column_raises_witness :
  no_rate_fs !! "t.csv" = Some [no_rate_header; "1,a,Alice,HR,40" +:+ NL]
  /\ Forall (fun col => col ∈ fields no_rate_header) REQUIRED_COLUMNS
  /\ Forall (fun k => k ∉ fields no_rate_header) RATE_COLUMNS
  /\ read_and_validate_file no_rate_fs "t.csv" RATE_COLUMNS empty_world
     = (empty_world, inl (ValueError (MissingRateColumn "t.csv"))).
Proof.
  assert (H1 : no_rate_fs !! "t.csv"
               = Some [no_rate_header; "1,a,Alice,HR,40" +:+ NL]) by reflexivity.
  assert (H2 : Forall (fun col => col ∈ fields no_rate_header) REQUIRED_COLUMNS)
    by (apply (bool_decide_unpack _); vm_compute; exact I).
  assert (H3 : Forall (fun k => k ∉ fields no_rate_header) RATE_COLUMNS)
    by (apply (bool_decide_unpack _); vm_compute; exact I).
  exact (conj H1 (conj H2 (conj H3
           (missing_rate_column_raises no_rate_fs "t.csv" RATE_COLUMNS
              no_rate_header _ empty_world H1 H2 H3)))).
Defined.

(** ** Rows that are rejected without a diagnostic *)

Lemma row_diags_app rate_column (rows1 rows2 : list (gmap string string)) :
  forall start,
    row_diags start rate_column (rows1 ++ rows2) =
      row_diags start rate_column rows1
      ++ row_diags (start + length rows1) rate_column rows2.
Proof.
  induction rows1 as [|parts rows1 IH]; intros start; cbn [app row_diags length].
  - by rewrite Nat.add_0_r.
  - rewrite IH, <- app_assoc. do 3 f_equal. lia.
Qed.

(** X3: a row that has all its keys and whose two numbers parse, but
    whose name or department is blank after trimming or whose hours or
    rate are below zero, yields no record and no diagnostic: the records
    of the whole list are those of the list without the row, and the
    diagnostics are those of the rows before it, followed by those of the
    rows after it. *)
Theorem invalid_row_is_dropped_silently
    (rate_column : string) (rows1 rows2 : list (gmap string string))
    (parts : gmap string string) (n d h rt : string) (x y : PyFloat.float)
    (w : world) :
  parts !! "name" = Some n ->
  parts !! "department" = Some d ->
  parts !! "hours_worked" = Some h ->
  parts !! rate_column = Some rt ->
  PyFloat.py_float h = inr x ->
  PyFloat.py_float rt = inr y ->
  (PyStr.strip n = "" \/ PyStr.strip d = ""
   \/ PyFloat.ltb x PyFloat.zero = true \/ PyFloat.ltb y PyFloat.zero = true) ->
  form_records (rows1 ++ parts :: rows2) rate_column w
    = (emit (row_diags 2 rate_column rows1
             ++ row_diags (3 + length rows1) rate_column rows2) w,
       inr (omap (accepted rate_column) (rows1 ++ rows2)))
  /\ (form_records (rows1 ++ rows2) rate_column w).2
     = inr (omap (accepted rate_column) (rows1 ++ rows2)).
Proof.
  intros Hn Hd Hh Hrt Hx Hy Hbad.
  assert (Hout : row_outcome rate_column parts = RowRejected).
  { unfold row_outcome. rewrite Hn, Hd, Hh, Hrt, Hx, Hy.
    destruct Hbad as [Hb|[Hb|[Hb|Hb]]].
    - by rewrite (bool_decide_eq_true_2 _ Hb).
    - rewrite (bool_decide_eq_true_2 _ Hb). by rewrite orb_true_r.
    - rewrite Hb. by rewrite orb_true_r.
    - rewrite Hb. by rewrite !orb_true_r. }
  rewrite !form_records_run. split; [|done].
  rewrite row_diags_app. cbn [row_diags]. rewrite Hout. cbn [app].
  rewrite !omap_app. cbn [omap list_omap]. unfold accepted at 2.
  rewrite Hout. reflexivity.
Qed.

Lemma invalid_row_is_dropped_silently_witness :
  negative_hours_row !! "name" = Some "Bob"
  /\ negative_hours_row !! "department" = Some "Sales"
  /\ negative_hours_row !! "hours_worked" = Some "-5"
  /\ negative_hours_row !! "rate" = Some "60"
  /\ PyFloat.py_float "-5" = inr (float_lit "-5")
  /\ PyFloat.py_float "60" = inr (float_lit "60")
  /\ (PyStr.strip "Bob" = "" \/ PyStr.strip "Sales" = ""
      \/ PyFloat.ltb (float_lit "-5") PyFloat.zero = true
      \/ PyFloat.ltb (float_lit "60") PyFloat.zero = true)
  /\ (form_records ([valid_row_alice] ++ negative_hours_row :: [valid_row_eve])
                   "rate" empty_world
      = (emit (row_diags 2 "rate" [valid_row_alice]
               ++ row_diags (3 + length [valid_row_alice]) "rate" [valid_row_eve])
              empty_world,
         inr (omap (accepted "rate") ([valid_row_alice] ++ [valid_row_eve])))
      /\ (form_records ([valid_row_alice] ++ [valid_row_eve]) "rate" empty_world).2
         = inr (omap (accepted "rate") ([valid_row_alice] ++ [valid_row_eve]))).
Proof.
  assert (H1 : negative_hours_row !! "name" = Some "Bob") by reflexivity.
  assert (H2 : negative_hours_row !! "department" = Some "Sales") by reflexivity.
  assert (H3 : negative_hours_row !! "hours_worked" = Some "-5") by reflexivity.
  assert (H4 : negative_hours_row !! "rate" = Some "60") by reflexivity.
  assert (H5 : PyFloat.py_float "-5" = inr (float_lit "-5")) by reflexivity.
  assert (H6 : PyFloat.py_float "60" = inr (float_lit "60")) by reflexivity.
  assert (H7 : PyStr.strip "Bob" = "" \/ PyStr.strip "Sales" = ""
               \/ PyFloat.ltb (float_lit "-5") PyFloat.zero = true
               \/ PyFloat.ltb (float_lit "60") PyFloat.zero = true)
    by (right; right; left; reflexivity).
  exact (conj H1 (conj H2 (conj H3 (conj H4 (conj H5 (conj H6 (conj H7
           (invalid_row_is_dropped_silently "rate" [valid_row_alice]
              [valid_row_eve] negative_hours_row "Bob" "Sales" "-5" "60"
              (float_lit "-5") (float_lit "60") empty_world
              H1 H2 H3 H4 H5 H6 H7)))))))).
Defined.

(** ** The mapping from column names to fields *)

Lemma dict_of_pairs_snoc (pairs : list (string * string)) kv :
  foldl (fun m kv => <[kv.1 := kv.2]> m) (∅ : gmap string string) (pairs ++ [kv])
  = <[kv.1 := kv.2]>
      (foldl (fun m kv => <[kv.1 := kv.2]> m) (∅ : gmap string string) pairs).
Proof. by rewrite foldl_app. Qed.

Lemma dict_of_pairs_list_to_map (pairs : list (string * string)) :
  foldl (fun m kv => <[kv.1 := kv.2]> m) (∅ : gmap string string) pairs
  = list_to_map (reverse pairs).
Proof.
  induction pairs as [|kv pairs IH] using rev_ind; [done|].
  rewrite dict_of_pairs_snoc, IH, reverse_app. by destruct kv.
Qed.

(** X4: in the mapping built from the header and the fields of a line,
    a column name stands for the field of the last column of that name
    (a repeated name keeps its last field), and for nothing when the
    header lacks it. *)
Theorem dict_of_zip_last_binding (keys values : list string) (k : string) :
  dict_of_zip keys values !! k = last_binding k (zip keys values).
Proof.
  unfold dict_of_zip, last_binding.
  generalize (zip keys values). intros pairs.
  induction pairs as [|kv pairs IH] using rev_ind; [done|].
  rewrite dict_of_pairs_snoc, filter_app, filter_cons, filter_nil.
  destruct (decide (kv.1 = k)) as [<-|Hne].
  - rewrite lookup_insert_eq. by rewrite last_snoc.
  - rewrite lookup_insert_ne by done. by rewrite app_nil_r.
Qed.

Lemma dict_of_zip_lookup_Some (keys values : list string) k v :
  NoDup keys -> length values = length keys ->
  dict_of_zip keys values !! k = Some v <-> (k, v) ∈ zip keys values.
Proof.
  intros Hnd Hlen. unfold dict_of_zip. rewrite dict_of_pairs_list_to_map.
  rewrite <- elem_of_list_to_map.
  - by rewrite elem_of_reverse.
  - rewrite fmap_reverse, reverse_Permutation.
    rewrite fst_zip by lia. done.
Qed.

(** X5: when the names of the header are distinct and the line has as
    many fields as the header, the mapping gives every column name the
    field at the position of the name, whatever the names and fields
    are. *)
Theorem dict_of_zip_lookup_at_column
    (header parts : list string) (i : nat) (k v : string) :
  NoDup header ->
  length parts = length header ->
  header !! i = Some k ->
  parts !! i = Some v ->
  dict_of_zip header parts !! k = Some v.
Proof.
  intros Hnd Hlen Hk Hv. apply dict_of_zip_lookup_Some; [done..|].
  apply list_elem_of_lookup. exists i.
  rewrite lookup_zip_with, Hk, Hv. done.
Qed.

Lemma dict_of_zip_lookup_at_column_witness :
  NoDup (fields sample_header)
  /\ length (fields "1,a,Alice,Mktg,40,50") = length (fields sample_header)
  /\ fields sample_header !! 4%nat = Some "hours_worked"
  /\ fields "1,a,Alice,Mktg,40,50" !! 4%nat = Some "40"
  /\ dict_of_zip (fields sample_header) (fields "1,a,Alice,Mktg,40,50")
       !! "hours_worked" = Some "40".
Proof.
  assert (H1 : NoDup (fields sample_header))
    by (apply (bool_decide_unpack _); vm_compute; exact I).
  assert (H2 : length (fields "1,a,Alice,Mktg,40,50") = length (fields sample_header))
    by reflexivity.
  assert (H3 : fields sample_header !! 4%nat = Some "hours_worked") by reflexivity.
  assert (H4 : fields "1,a,Alice,Mktg,40,50" !! 4%nat = Some "40") by reflexivity.
  exact (conj H1 (conj H2 (conj H3 (conj H4
           (dict_of_zip_lookup_at_column (fields sample_header)
              (fields "1,a,Alice,Mktg,40,50") 4 "hours_worked" "40"
              H1 H2 H3 H4))))).
Defined.

(** X6: the order of the columns does not matter: when the names of
    the header are distinct, a header and a line whose columns are those
    of another header and line in another order give the same mapping,
    hence the same outcome of the row. *)
Theorem column_order_is_irrelevant
    (header parts header' parts' : list string) (rate_column : string) :
  NoDup header ->
  length parts = length header ->
  length parts' = length header' ->
  zip header' parts' ≡ₚ zip header parts ->
  dict_of_zip header' parts' = dict_of_zip header parts
  /\ row_outcome rate_column (dict_of_zip header' parts')
     = row_outcome rate_column (dict_of_zip header parts).
Proof.
  intros Hnd Hlen Hlen' Hperm.
  assert (Hnd' : NoDup header').
  { rewrite <- (fst_zip header' parts') by lia.
    rewrite Hperm. rewrite fst_zip by lia. done. }
  assert (Heq : dict_of_zip header' parts' = dict_of_zip header parts).
  { apply map_eq. intros k. apply option_eq. intros v.
    rewrite !dict_of_zip_lookup_Some by done. by rewrite Hperm. }
  split; [done|]. by rewrite Heq.
Qed.

Lemma column_order_is_irrelevant_witness :
  NoDup (fields sample_header)
  /\ length (fields "1,a,Alice,Mktg,40,50") = length (fields sample_header)
  /\ length reordered_fields = length reordered_header
  /\ zip reordered_header reordered_fields
       ≡ₚ zip (fields sample_header) (fields "1,a,Alice,Mktg,40,50")
  /\ (dict_of_zip reordered_header reordered_fields
      = dict_of_zip (fields sample_header) (fields "1,a,Alice,Mktg,40,50")
      /\ row_outcome "rate" (dict_of_zip reordered_header reordered_fields)
         = row_outcome "rate"
             (dict_of_zip (fields sample_header) (fields "1,a,Alice,Mktg,40,50"))).
Proof.
  assert (H1 : NoDup (fields sample_header))
    by (apply (bool_decide_unpack _); vm_compute; exact I).
  assert (H2 : length (fields "1,a,Alice,Mktg,40,50") = length (fields sample_header))
    by reflexivity.
  assert (H3 : length reordered_fields = length reordered_header) by reflexivity.
  assert (H4 : zip reordered_header reordered_fields
               ≡ₚ zip (fields sample_header) (fields "1,a,Alice,Mktg,40,50")).
  { apply (bool_decide_unpack _). vm_compute. exact I. }
  exact (conj H1 (conj H2 (conj H3 (conj H4
           (column_order_is_irrelevant (fields sample_header)
              (fields "1,a,Alice,Mktg,40,50") reordered_header reordered_fields
              "rate" H1 H2 H3 H4))))).
Defined.

(** ** The groups of the reports *)

Lemma filter_ne_absent (ks : list string) k :
  k ∉ ks -> filter (fun d => d ≠ k) ks = ks.
Proof.
  induction ks as [|a ks IH]; intros Hk; [done|].
  rewrite filter_cons. destruct (decide (a ≠ k)) as [_|Heq].
  - f_equal. apply IH. intros H. apply Hk. by right.
  - exfalso. apply Hk. destruct (decide (a = k)) as [->|?]; [by left|done].
Qed.

Lemma concat_map_split {A} (g : string -> list A) (ks : list string) k :
  NoDup ks ->
  concat (map g ks) ≡ₚ
    (if decide (k ∈ ks) then g k else [])
    ++ concat (map g (filter (fun d => d ≠ k) ks)).
Proof.
  induction ks as [|a ks IH]; intros Hnd.
  - destruct (decide (k ∈ [])) as [H|_]; [by apply not_elem_of_nil in H|done].
  - apply NoDup_cons in Hnd as [Ha Hnd]. rewrite filter_cons. cbn [map concat].
    destruct (decide (a = k)) as [->|Hne].
    + destruct (decide (k ≠ k)) as [?|_]; [done|].
      destruct (decide (k ∈ k :: ks)) as [_|H]; [|exfalso; apply H; by left].
      by rewrite filter_ne_absent.
    + destruct (decide (a ≠ k)) as [_|?]; [|done]. cbn [map concat].
      rewrite (IH Hnd).
      assert (Hdec : (if decide (k ∈ a :: ks) then g k else [])
                     = (if decide (k ∈ ks) then g k else [])).
      { destruct (decide (k ∈ ks)) as [Hk|Hk];
          destruct (decide (k ∈ a :: ks)) as [Hk'|Hk']; try done.
        - exfalso. apply Hk'. by right.
        - apply elem_of_cons in Hk' as [?|?]; [congruence|done]. }
      rewrite Hdec. by rewrite !app_assoc, (Permutation_app_comm (g a)).
Qed.

Lemma concat_department_groups (records : list rec) :
  concat (map (fun d => filter (fun r => department r = d) records)
              (first_seen (map department records))) ≡ₚ records.
Proof.
  induction records as [|r records IH]; [done|].
  cbn [map first_seen concat]. rewrite filter_cons.
  destruct (decide (department r = department r)) as [_|?]; [|done].
  cbn [app]. apply Permutation_skip.
  rewrite (map_ext_in _ (fun d => filter (fun r0 => department r0 = d) records)).
  2:{ intros d Hd. apply list_elem_of_In, list_elem_of_filter in Hd as [Hd _].
      rewrite filter_cons.
      destruct (decide (department r = d)) as [?|_]; [congruence|done]. }
  rewrite <- IH at 3.
  rewrite (concat_map_split _ (first_seen (map department records)) (department r))
    by apply NoDup_first_seen.
  apply Permutation_app; [|done].
  destruct (decide (department r ∈ first_seen (map department records)))
    as [_|Hd]; [done|].
  rewrite filter_department_absent; [done|]. by rewrite <- elem_of_first_seen.
Qed.

Lemma fst_keyed {A} (g : string -> A) (ks : list string) :
  (map (fun d => (d, g d)) ks).*1 = ks.
Proof. induction ks as [|k ks IH]; [done|]. cbn. by rewrite IH. Qed.

Lemma snd_keyed {A} (g : string -> A) (ks : list string) :
  (map (fun d => (d, g d)) ks).*2 = map g ks.
Proof. induction ks as [|k ks IH]; [done|]. cbn. by rewrite IH. Qed.

Lemma department_groups_nonempty (records : list rec) :
  Forall (fun g => g.2 ≠ []) (department_groups (fun r => r) records).
Proof.
  unfold department_groups. apply Forall_forall. intros g Hg.
  apply list_elem_of_In, in_map_iff in Hg as (d & <- & Hd).
  apply list_elem_of_In, elem_of_first_seen, list_elem_of_In, in_map_iff in Hd
    as (r & <- & Hr).
  apply list_elem_of_In in Hr. cbn [snd]. rewrite map_id. intros Hnil.
  assert (Hin : r ∈ filter (fun r0 => department r0 = department r) records)
    by (by apply list_elem_of_filter).
  rewrite Hnil in Hin. by apply not_elem_of_nil in Hin.
Qed.

Lemma concat_groups_permutation (records : list rec) :
  concat (department_groups (fun r => r) records).*2 ≡ₚ records.
Proof.
  unfold department_groups. rewrite snd_keyed.
  rewrite (map_ext _ (fun d => filter (fun r => department r = d) records))
    by (intros d; apply map_id).
  apply concat_department_groups.
Qed.

(** X7: the dictionary that the payout report builds splits the
    records into groups: the departments of the groups are distinct, no
    group is empty, the records of a group all have its department, and
    the groups together hold every record exactly once. *)
Theorem groups_partition_the_records (records : list rec) :
  NoDup (group_by_department (fun r => r) records).*1
  /\ Forall (fun g => g.2 ≠ [] /\ Forall (fun r => department r = g.1) g.2)
            (group_by_department (fun r => r) records)
  /\ concat (group_by_department (fun r => r) records).*2 ≡ₚ records.
Proof.
  rewrite group_by_department_groups.
  split; [|split].
  - unfold department_groups. rewrite fst_keyed. apply NoDup_first_seen.
  - pose proof (department_groups_nonempty records) as Hne.
    rewrite Forall_forall in Hne |- *. intros g Hg. split; [by apply Hne|].
    unfold department_groups in Hg.
    apply list_elem_of_In, in_map_iff in Hg as (d & <- & _). cbn [fst snd].
    rewrite map_id. apply Forall_forall.
    by intros r [? _]%list_elem_of_filter.
  - apply concat_groups_permutation.
Qed.

(** ** How the payout report ends *)

Lemma elem_of_concat {A} (x : A) (ls : list (list A)) :
  x ∈ concat ls <-> exists l, x ∈ l /\ l ∈ ls.
Proof.
  rewrite list_elem_of_In, in_concat. split.
  - intros (l & Hl & Hx). exists l. by rewrite !list_elem_of_In.
  - intros (l & Hx & Hl). exists l. by rewrite <- !list_elem_of_In.
Qed.

Lemma to_int_finite x :
  (exists z, PyFloat.to_int x = inr z) <-> PyFloat.is_finite x = true.
Proof.
  destruct x as [s|s| |s m e]; cbn; split; try done; try (by intros [z ?]);
    intros _; by eexists.
Qed.

Lemma to_int_error x e :
  PyFloat.to_int x = inl e -> e = ValueError IntOfNaN \/ e = OverflowError.
Proof.
  destruct x as [s|s| |s m e']; cbn; try discriminate; intros [= <-]; auto.
Qed.

Lemma row_text_finite col_widths r :
  (exists line, row_text col_widths r = inr line)
  <-> PyFloat.is_finite (payout r) = true.
Proof.
  rewrite <- to_int_finite. unfold row_text.
  destruct (PyFloat.to_int (payout r)) as [e|z]; split.
  - by intros [line ?].
  - by intros [z ?].
  - intros _. by eexists.
  - intros _. by eexists.
Qed.

Lemma outcome_inr (actions : list (exn + string)) :
  outcome actions = inr tt <-> Forall (fun a => exists s, a = inr s) actions.
Proof.
  induction actions as [|[e|s] actions IH]; cbn [outcome].
  - split; [constructor|done].
  - split; [discriminate|]. intros [[s ?] _]%Forall_cons. discriminate.
  - rewrite IH, Forall_cons. split; [|by intros [_ ?]].
    intros H. split; [by eexists|done].
Qed.

Lemma outcome_inl (actions : list (exn + string)) e :
  outcome actions = inl e -> inl e ∈ actions.
Proof.
  induction actions as [|[e'|s] actions IH]; cbn [outcome]; [discriminate| |].
  - intros [= ->]. by left.
  - intros H. right. by apply IH.
Qed.

Lemma printed_all (actions : list (exn + string)) :
  outcome actions = inr tt -> length (printed actions) = length actions.
Proof.
  induction actions as [|[e|s] actions IH]; cbn [outcome printed length];
    [done|discriminate|].
  intros H. by rewrite IH.
Qed.

Lemma length_concat_blocks (groups : list (string * list rec)) :
  Forall (fun g => g.2 ≠ []) groups ->
  length (concat (map block_actions groups))
  = (3 * length groups + length (concat groups.*2))%nat.
Proof.
  induction groups as [|[d recs] groups IH]; intros Hne; [done|].
  apply Forall_cons in Hne as [Hrecs Hne]. cbn [fst snd] in Hrecs.
  cbn [map concat fmap list_fmap fst snd]. rewrite !length_app, (IH Hne).
  unfold block_actions. cbn [fst snd].
  destruct recs as [|r recs]; [done|].
  cbn [length]. rewrite length_map. cbn [length]. lia.
Qed.

Lemma block_action_cases (g : string * list rec) (a : exn + string) :
  g.2 ≠ [] ->
  a ∈ block_actions g ->
  a = inr (NL +:+ g.1)
  \/ a = inr (header_text (col_width g.2))
  \/ a = inr (dash_text (col_width g.2))
  \/ exists r, r ∈ g.2 /\ a = row_text (col_width g.2) r.
Proof.
  destruct g as [d recs]. cbn [fst snd]. intros Hne Ha.
  unfold block_actions in Ha. cbn [fst snd] in Ha.
  destruct recs as [|r recs]; [done|].
  apply elem_of_cons in Ha as [->|Ha]; [by left|].
  apply elem_of_cons in Ha as [->|Ha]; [right; by left|].
  apply elem_of_cons in Ha as [->|Ha]; [right; right; by left|].
  right. right. right.
  apply list_elem_of_In, in_map_iff in Ha as (r' & <- & Hr').
  exists r'. by apply list_elem_of_In in Hr'.
Qed.

(** The report goes through exactly when every payout is finite. *)
Lemma payout_actions_ok_iff (records : list rec) :
  outcome (payout_actions records) = inr tt
  <-> Forall (fun r => PyFloat.is_finite (payout r) = true) records.
Proof.
  unfold payout_actions.
  pose proof (department_groups_nonempty records) as Hne.
  assert (Hperm : Forall (fun r => PyFloat.is_finite (payout r) = true) records
                  <-> Forall (fun r => PyFloat.is_finite (payout r) = true)
                             (concat (department_groups (fun r => r) records).*2))
    by (by rewrite concat_groups_permutation).
  rewrite Hperm, outcome_inr, !Forall_forall. clear Hperm.
  rewrite Forall_forall in Hne.
  set (groups := department_groups (fun r => r) records) in *. split.
  - intros Hall r Hr.
    apply elem_of_concat in Hr as (recs & Hr & Hrecs).
    apply list_elem_of_fmap in Hrecs as (g & -> & Hg).
    apply (row_text_finite (col_width g.2)). apply Hall.
    apply elem_of_concat. exists (block_actions g). split.
    + unfold block_actions. destruct (g.2) as [|r0 recs0] eqn:Hg2;
        [by apply not_elem_of_nil in Hr|].
      do 3 right. rewrite <- Hg2.
      apply list_elem_of_In, in_map. apply list_elem_of_In. by rewrite Hg2.
    + apply list_elem_of_In, in_map. by apply list_elem_of_In.
  - intros Hall a Ha.
    apply elem_of_concat in Ha as (acts & Ha & Hacts).
    apply list_elem_of_In, in_map_iff in Hacts as (g & <- & Hg).
    apply list_elem_of_In in Hg.
    destruct (block_action_cases g a (Hne g Hg) Ha)
      as [->|[->|[->|(r & Hr & ->)]]]; try by eexists.
    apply row_text_finite, Hall.
    apply elem_of_concat. exists g.2. split; [done|].
    by apply list_elem_of_fmap_2.
Qed.

(** The only exceptions of the report are those of [int]. *)
Lemma payout_actions_error (records : list rec) e :
  outcome (payout_actions records) = inl e ->
  e = ValueError IntOfNaN \/ e = OverflowError.
Proof.
  unfold payout_actions.
  pose proof (department_groups_nonempty records) as Hne.
  rewrite Forall_forall in Hne.
  intros He. apply outcome_inl in He.
  apply elem_of_concat in He as (acts & He & Hacts).
  apply list_elem_of_In, in_map_iff in Hacts as (g & <- & Hg).
  apply list_elem_of_In in Hg.
  destruct (block_action_cases g _ (Hne g Hg) He)
    as [?|[?|[?|(r & Hr & Hrow)]]]; try discriminate.
  unfold row_text in Hrow.
  destruct (PyFloat.to_int (payout r)) as [e'|z] eqn:Hint; [|discriminate].
  injection Hrow as ->. by eapply to_int_error.
Qed.

(** X8: the payout report returns normally exactly when the payout of
    every record is finite; it then prints three lines per department and
    one line per record. When it raises, the exception is that of [int]
    on a NaN or on an infinity, never another one. *)
Theorem payout_report_completes_iff_payouts_finite
    (records : list rec) (w : world) :
  ((generate_payout_report records w).2 = inr tt
   <-> Forall (fun r => PyFloat.is_finite (payout r) = true) records)
  /\ (Forall (fun r => PyFloat.is_finite (payout r) = true) records ->
      exists lines,
        (generate_payout_report records w).1 = emit (map Text lines) w
        /\ length lines
           = (3 * length (first_seen (map department records))
              + length records)%nat)
  /\ (forall e,
        (generate_payout_report records w).2 = inl e ->
        e = ValueError IntOfNaN \/ e = OverflowError).
Proof.
  rewrite generate_payout_report_run. cbn [fst snd].
  split; [apply payout_actions_ok_iff|]. split; [|apply payout_actions_error].
  intros Hfinite. exists (printed (payout_actions records)).
  split; [done|].
  rewrite printed_all by (by apply payout_actions_ok_iff).
  unfold payout_actions.
  rewrite length_concat_blocks by apply department_groups_nonempty.
  rewrite concat_groups_permutation. unfold department_groups.
  by rewrite length_map.
Qed.

(** ** The exit status of [main] *)

(** X9: with the report kind [payout], the program ends with status 0
    exactly when the payout of every loaded record is finite, and with
    status 1 otherwise (the exception of [int] is not caught); missing or
    malformed files do not change the status. *)
Theorem payout_run_exit_status
    (py_sum : list PyFloat.float -> PyFloat.float)
    (fs : filesystem) (rate_columns : list string) (paths : list string)
    (w : world) :
  (exit_status (main py_sum fs rate_columns (mkNamespace paths "payout") w).2 = 0
   <-> Forall (fun r => PyFloat.is_finite (payout r) = true)
              (all_records fs rate_columns paths))
  /\ (exit_status (main py_sum fs rate_columns (mkNamespace paths "payout") w).2 = 0
      \/ exit_status (main py_sum fs rate_columns (mkNamespace paths "payout") w).2 = 1).
Proof.
  rewrite main_run. cbn [files report]. rewrite bool_decide_eq_true_2 by done.
  cbv zeta. fold (all_records fs rate_columns paths).
  set (w' := loaded_world fs rate_columns paths w).
  rewrite generate_payout_report_run. cbn [snd].
  pose proof (payout_actions_ok_iff (all_records fs rate_columns paths)) as Hiff.
  pose proof (payout_actions_error (all_records fs rate_columns paths)) as Herr.
  destruct (outcome (payout_actions (all_records fs rate_columns paths)))
    as [e|[]] eqn:Hrun.
  - destruct (Herr e eq_refl) as [-> | ->]; cbn.
    + split; [|by right]. split; [discriminate|].
      intros H. by apply Hiff in H.
    + split; [|by right]. split; [discriminate|].
      intros H. by apply Hiff in H.
  - cbn. split; [|by left]. split; [|done]. intros _. by apply Hiff.
Qed.

(** X10: with the report kind [mean_rate_department], the program
    always returns normally, with status 0, whatever the files are: after
    the diagnostics of the loading it prints the two heading lines and one
    line per distinct department of the loaded records, and nothing but
    the errors of the files goes to standard error. *)
Theorem mean_rate_run_always_succeeds
    (py_sum : list PyFloat.float -> PyFloat.float)
    (fs : filesystem) (rate_columns : list string) (paths : list string)
    (w : world) :
  exists lines,
    main py_sum fs rate_columns (mkNamespace paths "mean_rate_department") w
      = (emit (map Text (mean_rate_heading ++ lines))
              (loaded_world fs rate_columns paths w),
         inr tt)
    /\ length lines
       = length (first_seen (map department (all_records fs rate_columns paths)))
    /\ exit_status
         (main py_sum fs rate_columns
               (mkNamespace paths "mean_rate_department") w).2 = 0
    /\ stderr (main py_sum fs rate_columns
                    (mkNamespace paths "mean_rate_department") w).1
       = stderr w ++ concat (map (file_errors fs rate_columns) paths).
Proof.
  exists (map (mean_rate_line py_sum)
              (department_groups rate (all_records fs rate_columns paths))).
  rewrite main_run. cbn [files report].
  rewrite bool_decide_eq_false_2 by done.
  rewrite bool_decide_eq_true_2 by done. cbv zeta.
  rewrite generate_mean_rate_report_run. fold (all_records fs rate_columns paths).
  repeat split. unfold department_groups. by rewrite !length_map.
Qed.

(** ** The payout cell *)

Lemma binary_round_aux_to_int_nonneg mx ex lx z :
  PyFloat.to_int (binary_round_aux PyFloat.prec PyFloat.emax false mx ex lx) = inr z ->
  0 <= z.
Proof.
  unfold binary_round_aux.
  destruct (shr_fexp _ _ mx ex lx) as [mrs' e'].
  destruct (shr_fexp _ _ _ e' loc_Exact) as [mrs'' e''].
  destruct (shr_m mrs'') as [|m|m]; cbn; [by intros [= <-]| |discriminate].
  destruct (e'' <=? _); [|discriminate]. cbn. intros [= <-].
  destruct (0 <=? e'') eqn:He.
  - apply Z.leb_le in He. pose proof (Z.pow_nonneg 2 e'' ltac:(lia)). nia.
  - apply Z.div_pos; [lia|]. apply Z.pow_pos_nonneg; lia.
Qed.

(** The product of two floats that are not below zero truncates, when
    it is finite, to an integer that is not below zero. *)
Lemma mul_to_int_nonneg x y z :
  PyFloat.ltb x PyFloat.zero = false ->
  PyFloat.ltb y PyFloat.zero = false ->
  PyFloat.to_int (PyFloat.mul x y) = inr z ->
  0 <= z.
Proof.
  destruct x as [sx|[]| |[] mx ex]; destruct y as [sy|[]| |[] my ey];
    cbn; try discriminate; intros _ _;
    try (intros [= <-]; lia).
  apply binary_round_aux_to_int_nonneg.
Qed.

(** X11: for a record made by the loader whose payout is finite, the
    payout cell is a dollar sign followed by the decimal digits of the
    payout truncated to an integer: it has no minus sign and no decimal
    point. *)
Theorem payout_cell_is_dollar_and_digits
    (rate_column : string) (parts : gmap string string) (r : rec) (w : world) :
  accepted rate_column parts = Some r ->
  PyFloat.is_finite (payout r) = true ->
  exists z digits,
    PyFloat.to_int (payout r) = inr z
    /\ 0 <= z
    /\ digits = PyStr.str_of_N (Z.to_N z)
    /\ cell_value r Payout w = (w, inr (String "$" digits))
    /\ digits ≠ "" /\ all_digits digits = true.
Proof.
  intros Hacc Hfinite. apply to_int_finite in Hfinite as [z Hz].
  apply accepted_valid in Hacc as (_ & _ & Hh & Hr & Hpay).
  assert (Hnonneg : 0 <= z).
  { rewrite Hpay in Hz. exact (mul_to_int_nonneg _ _ _ Hh Hr Hz). }
  exists z, (PyStr.str_of_N (Z.to_N z)).
  destruct (str_of_N_digits (Z.to_N z)) as [Hdigits Hne].
  repeat split; try done.
  unfold cell_value. unfold_M. rewrite Hz. cbn.
  unfold PyStr.str_of_Z. by destruct z; [..|lia].
Qed.

Lemma payout_cell_is_dollar_and_digits_witness :
  accepted "rate" valid_row_alice
    = Some (mkRec "Alice" "Mktg" (float_lit "40") (float_lit "50")
                  (PyFloat.mul (float_lit "40") (float_lit "50")))
  /\ PyFloat.is_finite (PyFloat.mul (float_lit "40") (float_lit "50")) = true
  /\ exists z digits,
       PyFloat.to_int (PyFloat.mul (float_lit "40") (float_lit "50")) = inr z
       /\ 0 <= z
       /\ digits = PyStr.str_of_N (Z.to_N z)
       /\ cell_value (mkRec "Alice" "Mktg" (float_lit "40") (float_lit "50")
                            (PyFloat.mul (float_lit "40") (float_lit "50")))
                     Payout empty_world
          = (empty_world, inr (String "$" digits))
       /\ digits ≠ "" /\ all_digits digits = true.
Proof.
  assert (H1 : accepted "rate" valid_row_alice
               = Some (mkRec "Alice" "Mktg" (float_lit "40") (float_lit "50")
                             (PyFloat.mul (float_lit "40") (float_lit "50"))))
    by (vm_compute; reflexivity).
  assert (H2 : PyFloat.is_finite (PyFloat.mul (float_lit "40") (float_lit "50")) = true)
    by (vm_compute; reflexivity).
  exact (conj H1 (conj H2
           (payout_cell_is_dollar_and_digits "rate" valid_row_alice
              (mkRec "Alice" "Mktg" (float_lit "40") (float_lit "50")
                     (PyFloat.mul (float_lit "40") (float_lit "50")))
              empty_world H1 H2))).
Defined.

(** ** The diagnostics of the loader *)

Lemma length_mismatch_diags filepath header (data : list string) : forall start,
  (length (mismatch_diags start filepath header data)
   + length (filter (well_formed header) data) = length data)%nat.
Proof.
  induction data as [|line data IH]; intros start; [done|].
  cbn [mismatch_diags]. rewrite filter_cons, length_app.
  specialize (IH (S start)).
  destruct (decide (well_formed header line)); cbn [length]; lia.
Qed.

Lemma length_row_diags rate_column (rows : list (gmap string string)) :
  forall start,
    (length (row_diags start rate_column rows)
     + length (omap (accepted rate_column) rows) <= length rows)%nat.
Proof.
  induction rows as [|parts rows IH]; intros start; [done|].
  cbn [row_diags omap list_omap]. rewrite length_app. unfold accepted at 1.
  specialize (IH (S start)).
  destruct (row_outcome rate_column parts); cbn [length]; lia.
Qed.

Lemma row_diags_bad_rows rate_column (rows : list (gmap string string)) :
  forall start,
    Forall (fun x => exists n, x = DiagBadRow n) (row_diags start rate_column rows).
Proof.
  induction rows as [|parts rows IH]; intros start; cbn [row_diags].
  - constructor.
  - apply Forall_app. split; [|apply IH].
    destruct (row_outcome rate_column parts); repeat constructor. by eexists.
Qed.

(** X12: loading a file with a valid header prints first the
    column-count diagnostics, one for each data line whose number of fields
    differs from the header's and for no other line, each with the number
    of its line in the file, then the diagnostics of the rows that fail to
    parse; every data line gives at most one diagnostic or one record. *)
Theorem every_data_line_is_accounted_for
    (fs : filesystem) (filepath : string) (rate_columns : list string)
    (line0 : string) (data : list string) (rate_column : string) (w : world) :
  fs !! filepath = Some (line0 :: data) ->
  Forall (fun col => col ∈ fields line0) REQUIRED_COLUMNS ->
  select_rate_column rate_columns (fields line0) = Some rate_column ->
  rate_column ≠ "" ->
  exists mismatches bad_rows records,
    read_and_validate_file fs filepath rate_columns w
      = (emit (mismatches ++ bad_rows) w, inr records)
    /\ (forall x,
          x ∈ mismatches <->
          exists i line,
            data !! i = Some line /\ ~ well_formed (fields line0) line
            /\ x = DiagColumnMismatch (2 + i) filepath)
    /\ Forall (fun x => exists n, x = DiagBadRow n) bad_rows
    /\ (length mismatches + length bad_rows + length records <= length data)%nat.
Proof.
  intros Hfile Hreq Hsel Hne.
  exists (mismatch_diags 2 filepath (fields line0) data),
         (row_diags 2 rate_column (loaded_rows (fields line0) data)),
         (omap (accepted rate_column) (loaded_rows (fields line0) data)).
  split; [|split; [|split]].
  - rewrite read_and_validate_file_run, Hfile. cbv zeta.
    rewrite (proj2 (first_missing_None _))
      by (intros col Hcol; by eapply Forall_forall in Hreq).
    rewrite Hsel. by destruct rate_column.
  - intros x. apply elem_of_mismatch_diags.
  - apply row_diags_bad_rows.
  - pose proof (length_mismatch_diags filepath (fields line0) data 2) as Hm.
    pose proof (length_row_diags rate_column (loaded_rows (fields line0) data) 2)
      as Hr.
    unfold loaded_rows in Hr at 3. rewrite length_map in Hr. lia.
Qed.

Lemma every_data_line_is_accounted_for_witness :
  drift_fs !! "t.csv" = Some [sample_header; short_line; bad_hours_line]
  /\ Forall (fun col => col ∈ fields sample_header) REQUIRED_COLUMNS
  /\ select_rate_column RATE_COLUMNS (fields sample_header) = Some "rate"
  /\ "rate" ≠ ""
  /\ exists mismatches bad_rows records,
       read_and_validate_file drift_fs "t.csv" RATE_COLUMNS empty_world
         = (emit (mismatches ++ bad_rows) empty_world, inr records)
       /\ (forall x,
             x ∈ mismatches <->
             exists i line,
               [short_line; bad_hours_line] !! i = Some line
               /\ ~ well_formed (fields sample_header) line
               /\ x = DiagColumnMismatch (2 + i) "t.csv")
       /\ Forall (fun x => exists n, x = DiagBadRow n) bad_rows
       /\ (length mismatches + length bad_rows + length records
           <= length [short_line; bad_hours_line])%nat.
Proof.
  assert (H1 : drift_fs !! "t.csv"
               = Some [sample_header; short_line; bad_hours_line]) by reflexivity.
  assert (H2 : Forall (fun col => col ∈ fields sample_header) REQUIRED_COLUMNS)
    by (apply (bool_decide_unpack _); vm_compute; exact I).
  assert (H3 : select_rate_column RATE_COLUMNS (fields sample_header) = Some "rate")
    by (vm_compute; reflexivity).
  assert (H4 : "rate" ≠ "") by discriminate.
  exact (conj H1 (conj H2 (conj H3 (conj H4
           (every_data_line_is_accounted_for drift_fs "t.csv" RATE_COLUMNS
              sample_header _ "rate" empty_world H1 H2 H3 H4))))).
Defined.

Lemma filter_all_well_formed header (data : list string) :
  Forall (well_formed header) data -> filter (well_formed header) data = data.
Proof.
  induction data as [|line data IH]; intros Hall; [done|].
  apply Forall_cons in Hall as [Hwf Hall].
  rewrite filter_cons, decide_True by done. by rewrite IH.
Qed.

(** X13: when every data line has as many fields as the header, the
    diagnostic of a row that fails to parse carries the number of its line
    in the file: a diagnostic with number [n] is printed exactly when line
    [n] of the file lacks a key or holds hours or a rate that [float]
    rejects. *)
Theorem bad_row_numbers_are_file_lines_without_mismatch
    (fs : filesystem) (filepath : string) (rate_columns : list string)
    (line0 : string) (data : list string) (rate_column : string) (w : world) :
  fs !! filepath = Some (line0 :: data) ->
  Forall (fun col => col ∈ fields line0) REQUIRED_COLUMNS ->
  select_rate_column rate_columns (fields line0) = Some rate_column ->
  rate_column ≠ "" ->
  Forall (well_formed (fields line0)) data ->
  exists diags,
    (read_and_validate_file fs filepath rate_columns w).1 = emit diags w
    /\ forall x,
         x ∈ diags <->
         exists i line,
           data !! i = Some line
           /\ row_outcome rate_column (dict_of_zip (fields line0) (fields line))
              = RowBad
           /\ x = DiagBadRow (2 + i).
Proof.
  intros Hfile Hreq Hsel Hne Hall.
  exists (row_diags 2 rate_column (loaded_rows (fields line0) data)). split.
  - rewrite read_and_validate_file_run, Hfile. cbv zeta.
    rewrite (proj2 (first_missing_None _))
      by (intros col Hcol; by eapply Forall_forall in Hreq).
    rewrite Hsel. destruct rate_column as [|a c]; [done|]. cbn [fst].
    assert (Hnone : mismatch_diags 2 filepath (fields line0) data = []).
    { pose proof (length_mismatch_diags filepath (fields line0) data 2) as Hlen.
      rewrite filter_all_well_formed in Hlen by done.
      apply length_zero_iff_nil. lia. }
    by rewrite Hnone.
  - intros x. rewrite elem_of_row_diags. unfold loaded_rows.
    rewrite filter_all_well_formed by done. split.
    + intros (i & parts & Hi & Hbad & ->).
      rewrite list_lookup_fmap in Hi.
      destruct (data !! i) as [line|] eqn:Hline; [|done].
      injection Hi as <-. by exists i, line.
    + intros (i & line & Hi & Hbad & ->).
      exists i, (dict_of_zip (fields line0) (fields line)). split; [|done].
      by rewrite list_lookup_fmap, Hi.
Qed.

Lemma bad_row_numbers_are_file_lines_without_mismatch_witness :
  unparsed_rows_fs !! "t.csv" = Some (sample_header :: unparsed_rows)
  /\ Forall (fun col => col ∈ fields sample_header) REQUIRED_COLUMNS
  /\ select_rate_column RATE_COLUMNS (fields sample_header) = Some "rate"
  /\ "rate" ≠ ""
  /\ Forall (well_formed (fields sample_header)) unparsed_rows
  /\ exists diags,
       (read_and_validate_file unparsed_rows_fs "t.csv" RATE_COLUMNS empty_world).1
         = emit diags empty_world
       /\ (forall x,
             x ∈ diags <->
             exists i line,
               unparsed_rows !! i = Some line
               /\ row_outcome "rate" (dict_of_zip (fields sample_header) (fields line))
                  = RowBad
               /\ x = DiagBadRow (2 + i))
       /\ DiagBadRow 4 ∈ diags
       /\ DiagBadRow 6 ∈ diags
       /\ (DiagBadRow 3 ∉ diags)
       /\ diags = [DiagBadRow 4; DiagBadRow 6].
Proof.
  assert (H1 : unparsed_rows_fs !! "t.csv" = Some (sample_header :: unparsed_rows))
    by reflexivity.
  assert (H2 : Forall (fun col => col ∈ fields sample_header) REQUIRED_COLUMNS)
    by (apply (bool_decide_unpack _); vm_compute; exact I).
  assert (H3 : select_rate_column RATE_COLUMNS (fields sample_header) = Some "rate")
    by (vm_compute; reflexivity).
  assert (H4 : "rate" ≠ "") by discriminate.
  assert (H5 : Forall (well_formed (fields sample_header)) unparsed_rows)
    by (apply (bool_decide_unpack _); vm_compute; exact I).
  destruct (bad_row_numbers_are_file_lines_without_mismatch unparsed_rows_fs "t.csv"
              RATE_COLUMNS sample_header _ "rate" empty_world H1 H2 H3 H4 H5)
    as (diags & Hw & Hiff).
  refine (conj H1 (conj H2 (conj H3 (conj H4 (conj H5
            (ex_intro _ diags (conj Hw (conj Hiff _)))))))).
  split; [|split; [|split]].
  - apply Hiff. exists 2%nat, ("3,c,Cy,HR,abc,20" +:+ NL).
    split; [reflexivity|]. split; [by vm_compute|reflexivity].
  - apply Hiff. exists 4%nat, ("5,e,Eve,HR,10,x" +:+ NL).
    split; [reflexivity|]. split; [by vm_compute|reflexivity].
  - intros Hin. apply Hiff in Hin as (i & line & Hi & Hbad & Heq).
    injection Heq as Heq. assert (i = 1%nat) as -> by lia.
    injection Hi as <-. vm_compute in Hbad. discriminate.
  - vm_compute in Hw. by injection Hw.
Defined.

(** ** The rows of the payout table *)

(** X14: in every department block the header row and the row of
    dashes have the same length, the four column widths and three tabs;
    neither ends with a tab. *)
Theorem header_and_dash_rows_are_aligned (recs : list rec) :
  String.length (header_line (col_width recs))
    = String.length (dash_line (col_width recs))
  /\ String.length (dash_line (col_width recs))
     = (col_width recs Name + col_width recs Hours + col_width recs Rate
        + col_width recs Payout + 3)%nat
  /\ header_line (col_width recs)
     = PyStr.ljust (col_width recs Name) "name" +:+ TAB
       +:+ PyStr.ljust (col_width recs Hours) "hours" +:+ TAB
       +:+ PyStr.ljust (col_width recs Rate) "rate" +:+ TAB
       +:+ PyStr.ljust (col_width recs Payout) "payout".
Proof.
  assert (Hw : forall col,
    (String.length (col_name col) <= col_width recs col)%nat).
  { intros col.
    by destruct (col_width_loop
                   (fun r => String.length (width_text (getcol r col)))
                   recs (String.length (col_name col))) as [? _]. }
  pose proof (Hw Name) as H1. pose proof (Hw Hours) as H2.
  pose proof (Hw Rate) as H3. pose proof (Hw Payout) as H4.
  cbn in H1, H2, H3, H4.
  rewrite header_line_text, dash_line_text. unfold header_text, dash_text.
  rewrite !length_append, !length_ljust, !length_replicate_char.
  cbn [String.length TAB]. repeat split; lia.
Qed.

(** ** Trimmed names *)

Lemma rev_app_append (s1 s2 : string) :
  String.rev_app s1 s2 = String.rev s1 +:+ s2.
Proof.
  unfold String.rev. revert s2.
  induction s1 as [|a s1 IH]; intros s2; [done|].
  cbn [String.rev_app]. rewrite (IH (String a s2)), (IH (String a "")).
  by rewrite append_assoc.
Qed.

Lemma rev_cons a (s : string) : String.rev (String a s) = String.rev s +:+ String a "".
Proof. unfold String.rev at 1. cbn [String.rev_app]. apply rev_app_append. Qed.

Lemma rev_append (s1 s2 : string) :
  String.rev (s1 +:+ s2) = String.rev s2 +:+ String.rev s1.
Proof.
  induction s1 as [|a s1 IH].
  - by rewrite append_nil_l, append_nil_r.
  - by rewrite append_cons, !rev_cons, IH, append_assoc.
Qed.

Lemma rev_involutive (s : string) : String.rev (String.rev s) = s.
Proof.
  induction s as [|a s IH]; [done|].
  by rewrite rev_cons, rev_append, IH.
Qed.

Lemma lstrip_by_split p (s : string) :
  exists pre, s = pre +:+ PyStr.lstrip_by p s.
Proof.
  induction s as [|c s [pre IH]]; [by exists ""|].
  cbn [PyStr.lstrip_by]. destruct (p c).
  - exists (String c pre). by rewrite append_cons, <- IH.
  - by exists "".
Qed.

Lemma lstrip_by_head p (s : string) c t :
  PyStr.lstrip_by p s = String c t -> p c = false.
Proof.
  induction s as [|a s IH]; [done|]. cbn [PyStr.lstrip_by].
  destruct (p a) eqn:Ha; [done|]. by intros [= <- _].
Qed.

Lemma lstrip_by_fixed p (s : string) :
  (forall c t, s = String c t -> p c = false) -> PyStr.lstrip_by p s = s.
Proof.
  destruct s as [|c t]; [done|]. intros H. cbn [PyStr.lstrip_by].
  by rewrite (H c t eq_refl).
Qed.

(** Stripping a stripped string changes nothing. *)
Lemma strip_by_idempotent p (s : string) :
  PyStr.strip_by p (PyStr.strip_by p s) = PyStr.strip_by p s.
Proof.
  unfold PyStr.strip_by, PyStr.rstrip_by.
  set (t := PyStr.lstrip_by p s).
  set (u := PyStr.lstrip_by p (String.rev t)).
  assert (Hleft : PyStr.lstrip_by p (String.rev u) = String.rev u).
  { apply lstrip_by_fixed. intros c v Hcv.
    destruct (lstrip_by_split p (String.rev t)) as [pre Hpre]. fold u in Hpre.
    assert (Ht : t = String.rev u +:+ String.rev pre).
    { by rewrite <- rev_append, <- Hpre, rev_involutive. }
    rewrite Hcv, append_cons in Ht. by eapply lstrip_by_head. }
  rewrite Hleft, rev_involutive.
  assert (Hu : PyStr.lstrip_by p u = u).
  { apply lstrip_by_fixed. intros c v Hcv. by eapply lstrip_by_head. }
  by rewrite Hu.
Qed.

(** X15: the name and the department of a record made by the loader
    are trimmed: they are not empty, do not begin with a whitespace
    character, and trimming them again changes nothing. *)
Theorem record_names_are_trimmed
    (rate_column : string) (parts : gmap string string) (r : rec) :
  accepted rate_column parts = Some r ->
  PyStr.strip (name r) = name r
  /\ PyStr.strip (department r) = department r
  /\ (exists c s, name r = String c s /\ PyStr.isspace c = false)
  /\ (exists c s, department r = String c s /\ PyStr.isspace c = false).
Proof.
  intros Hacc.
  assert (Hhead : forall s, PyStr.strip s ≠ "" ->
    exists c t, PyStr.strip s = String c t /\ PyStr.isspace c = false).
  { intros s Hne. destruct (PyStr.strip s) as [|c t] eqn:Hs; [done|].
    exists c, t. split; [done|].
    pose proof (strip_by_idempotent PyStr.isspace s) as Hidem.
    fold (PyStr.strip s) in Hidem. rewrite Hs in Hidem.
    unfold PyStr.strip_by, PyStr.rstrip_by in Hidem.
    cbn [PyStr.lstrip_by] in Hidem.
    destruct (PyStr.isspace c) eqn:Hc; [|done].
    exfalso.
    destruct (lstrip_by_split PyStr.isspace t) as [pre Hpre].
    assert (Hlen : String.length (String c t)
                   = String.length
                       (String.rev (PyStr.lstrip_by PyStr.isspace
                          (String.rev (PyStr.lstrip_by PyStr.isspace t)))))
      by (by rewrite Hidem).
    destruct (lstrip_by_split PyStr.isspace
                (String.rev (PyStr.lstrip_by PyStr.isspace t))) as [pre' Hpre'].
    assert (Hrev : forall x : string, String.length (String.rev x) = String.length x).
    { intros x. induction x as [|a x IHx]; [done|].
      rewrite rev_cons, length_append, IHx. cbn. lia. }
    apply (f_equal String.length) in Hpre, Hpre'.
    rewrite length_append in Hpre, Hpre'. rewrite !Hrev in *.
    cbn [String.length] in Hlen. lia. }
  generalize (accepted_valid _ _ _ Hacc). intros (Hn & Hd & _).
  unfold accepted, row_outcome in Hacc.
  destruct (parts !! "name") as [n|]; [|done].
  destruct (parts !! "department") as [d|]; [|done].
  destruct (parts !! "hours_worked") as [h|]; [|done].
  destruct (parts !! rate_column) as [rt|]; [|done].
  destruct (PyFloat.py_float h) as [|hs]; [done|].
  destruct (PyFloat.py_float rt) as [|rs]; [done|].
  destruct (_ || _); [done|]. injection Hacc as <-. cbn [name department] in *.
  split; [apply strip_by_idempotent|]. split; [apply strip_by_idempotent|].
  split; by apply Hhead.
Qed.

Lemma record_names_are_trimmed_witness :
  accepted "rate" padded_row
    = Some (mkRec "Alice" "Mktg" (float_lit "40") (float_lit "50")
                  (PyFloat.mul (float_lit "40") (float_lit "50")))
  /\ PyStr.strip "Alice" = "Alice"
  /\ PyStr.strip "Mktg" = "Mktg"
  /\ (exists c s, "Alice" = String c s /\ PyStr.isspace c = false)
  /\ (exists c s, "Mktg" = String c s /\ PyStr.isspace c = false).
Proof.
  assert (H1 : accepted "rate" padded_row
               = Some (mkRec "Alice" "Mktg" (float_lit "40") (float_lit "50")
                             (PyFloat.mul (float_lit "40") (float_lit "50"))))
    by (vm_compute; reflexivity).
  exact (conj H1
           (record_names_are_trimmed "rate" padded_row
              (mkRec "Alice" "Mktg" (float_lit "40") (float_lit "50")
                     (PyFloat.mul (float_lit "40") (float_lit "50"))) H1)).
Defined.

(** ** Splitting a line into fields *)

Lemma split_nonempty sep (s : string) : PyStr.split sep s ≠ [].
Proof.
  destruct s as [|c s]; [done|]. cbn [PyStr.split].
  destruct (Ascii.eqb c sep); [done|]. by destruct (PyStr.split sep s).
Qed.

Lemma join_cons sep f (rest : list string) :
  rest ≠ [] -> join sep (f :: rest) = f +:+ String sep (join sep rest).
Proof. by destruct rest. Qed.

Lemma split_join sep (s : string) : join sep (PyStr.split sep s) = s.
Proof.
  induction s as [|c s IH]; [done|]. cbn [PyStr.split].
  destruct (Ascii.eqb c sep) eqn:Hc.
  - apply Ascii.eqb_eq in Hc as ->.
    rewrite join_cons by apply split_nonempty. by rewrite IH.
  - pose proof (split_nonempty sep s) as Hne.
    destruct (PyStr.split sep s) as [|f [|f' rest]]; [done| |].
    + cbn in IH |- *. by rewrite IH.
    + rewrite join_cons in IH |- * by done.
      by rewrite append_cons, IH.
Qed.

Lemma split_no_separator sep (s : string) f :
  f ∈ PyStr.split sep s -> contains sep f = false.
Proof.
  revert f. induction s as [|c s IH]; intros f; cbn [PyStr.split].
  - by intros ->%list_elem_of_singleton.
  - destruct (Ascii.eqb c sep) eqn:Hc.
    + intros [->|Hf]%elem_of_cons; [done|by apply IH].
    + pose proof (split_nonempty sep s) as Hne.
      destruct (PyStr.split sep s) as [|f0 rest]; [done|].
      intros [->|Hf]%elem_of_cons.
      * cbn [contains]. rewrite Hc. apply IH. by left.
      * apply IH. by right.
Qed.

(** X16: the fields of a line are never empty as a list, none of them
    contains a comma (a quoted comma separates like any other), and the
    fields joined by commas give back the stripped line: nothing of the
    line is lost or trimmed inside it. *)
Theorem fields_split_at_every_comma (line : string) :
  fields line ≠ []
  /\ (forall f, f ∈ fields line -> contains CSV_SEPARATOR f = false)
  /\ join CSV_SEPARATOR (fields line) = PyStr.strip line.
Proof.
  unfold fields. split; [apply split_nonempty|]. split.
  - intros f. apply split_no_separator.
  - apply split_join.
Qed.

(** ** Blank lines *)

Lemma lstrip_by_all_space (s : string) :
  all_space s = true -> PyStr.lstrip_by PyStr.isspace s = "".
Proof.
  induction s as [|c s IH]; [done|]. cbn [all_space PyStr.lstrip_by].
  intros [Hc Hs]%andb_true_iff. rewrite Hc. by apply IH.
Qed.

Lemma fields_blank (line : string) : all_space line = true -> fields line = [""].
Proof.
  intros Hblank. unfold fields, PyStr.strip, PyStr.strip_by, PyStr.rstrip_by.
  by rewrite (lstrip_by_all_space _ Hblank).
Qed.

(** X17: in a file with a valid header, a data line that is empty or
    holds whitespace only (a blank line between rows or at the end of the
    file) is reported as a column-count mismatch with its line number and
    gives no record. *)
Theorem blank_line_is_reported_as_mismatch
    (fs : filesystem) (filepath : string) (rate_columns : list string)
    (line0 : string) (data : list string) (rate_column : string) (w : world)
    (i : nat) (line : string) :
  fs !! filepath = Some (line0 :: data) ->
  Forall (fun col => col ∈ fields line0) REQUIRED_COLUMNS ->
  select_rate_column rate_columns (fields line0) = Some rate_column ->
  rate_column ≠ "" ->
  data !! i = Some line ->
  all_space line = true ->
  DiagColumnMismatch (2 + i) filepath
    ∈ stdout (read_and_validate_file fs filepath rate_columns w).1
  /\ line_record rate_column (fields line0) line = None.
Proof.
  intros Hfile Hreq Hsel Hne Hi Hblank.
  assert (Hwf : ~ well_formed (fields line0) line).
  { unfold well_formed. rewrite (fields_blank _ Hblank). cbn [length].
    intros Hlen.
    assert (Hid : "id" ∈ fields line0).
    { eapply Forall_forall in Hreq; [exact Hreq|]. by left. }
    assert (Hemail : "email" ∈ fields line0).
    { eapply Forall_forall in Hreq; [exact Hreq|]. right. by left. }
    destruct (fields line0) as [|f [|f' rest]]; [done| |done].
    apply list_elem_of_singleton in Hid, Hemail. congruence. }
  split; [|unfold line_record; by rewrite decide_False].
  rewrite read_and_validate_file_run, Hfile. cbv zeta.
  rewrite (proj2 (first_missing_None _))
    by (intros col Hcol; by eapply Forall_forall in Hreq).
  rewrite Hsel. destruct rate_column as [|a c]; [done|]. cbn [fst emit stdout].
  apply elem_of_app. right. apply elem_of_app. left.
  apply elem_of_mismatch_diags. by exists i, line.
Qed.

Lemma blank_line_is_reported_as_mismatch_witness :
  blank_lines_fs !! "t.csv"
    = Some [sample_header; "1,a,Alice,Mktg,40,50" +:+ NL; NL;
            "2,b,Bob,Sales,35,60" +:+ NL; "  " +:+ NL]
  /\ Forall (fun col => col ∈ fields sample_header) REQUIRED_COLUMNS
  /\ select_rate_column RATE_COLUMNS (fields sample_header) = Some "rate"
  /\ "rate" ≠ ""
  /\ ["1,a,Alice,Mktg,40,50" +:+ NL; NL; "2,b,Bob,Sales,35,60" +:+ NL;
      "  " +:+ NL] !! 3%nat = Some ("  " +:+ NL)
  /\ all_space ("  " +:+ NL) = true
  /\ (DiagColumnMismatch (2 + 3) "t.csv"
        ∈ stdout (read_and_validate_file blank_lines_fs "t.csv" RATE_COLUMNS
                    empty_world).1
      /\ line_record "rate" (fields sample_header) ("  " +:+ NL) = None).
Proof.
  assert (H1 : blank_lines_fs !! "t.csv"
               = Some [sample_header; "1,a,Alice,Mktg,40,50" +:+ NL; NL;
                       "2,b,Bob,Sales,35,60" +:+ NL; "  " +:+ NL]) by reflexivity.
  assert (H2 : Forall (fun col => col ∈ fields sample_header) REQUIRED_COLUMNS)
    by (apply (bool_decide_unpack _); vm_compute; exact I).
  assert (H3 : select_rate_column RATE_COLUMNS (fields sample_header) = Some "rate")
    by (vm_compute; reflexivity).
  assert (H4 : "rate" ≠ "") by discriminate.
  assert (H5 : ["1,a,Alice,Mktg,40,50" +:+ NL; NL; "2,b,Bob,Sales,35,60" +:+ NL;
                "  " +:+ NL] !! 3%nat = Some ("  " +:+ NL)) by reflexivity.
  assert (H6 : all_space ("  " +:+ NL) = true) by reflexivity.
  exact (conj H1 (conj H2 (conj H3 (conj H4 (conj H5 (conj H6
           (blank_line_is_reported_as_mismatch blank_lines_fs "t.csv" RATE_COLUMNS
              sample_header _ "rate" empty_world 3 ("  " +:+ NL)
              H1 H2 H3 H4 H5 H6))))))).
Defined.

(** ** The name column *)

(** X18: in a department block the name cells are aligned: the cell
    of every record of the block, and the header cell, have exactly the
    width of the name column, which is the length of the longest of the
    names and of the word [name]. *)
Theorem name_cells_have_the_column_width (recs : list rec) (r : rec) (w : world) :
  r ∈ recs ->
  cell_value r Name w = (w, inr (name r))
  /\ String.length (PyStr.ljust (col_width recs Name) (name r))
     = col_width recs Name
  /\ String.length (PyStr.ljust (col_width recs Name) (col_name Name))
     = col_width recs Name
  /\ (col_width recs Name = String.length (col_name Name)
      \/ exists r', r' ∈ recs /\ col_width recs Name = String.length (name r')).
Proof.
  intros Hr.
  destruct (col_width_loop (fun r0 => String.length (width_text (getcol r0 Name)))
              recs (String.length (col_name Name))) as (Hname & Hall & Hmax).
  fold (col_width recs Name) in Hname, Hall, Hmax.
  pose proof (Hall r Hr) as Hle. cbn [getcol width_text] in Hle.
  split; [done|]. rewrite !length_ljust.
  split; [lia|]. split; [lia|done].
Qed.

Lemma name_cells_have_the_column_width_witness :
  carl ∈ [carl]
  /\ (cell_value carl Name empty_world = (empty_world, inr (name carl))
      /\ String.length (PyStr.ljust (col_width [carl] Name) (name carl))
         = col_width [carl] Name
      /\ String.length (PyStr.ljust (col_width [carl] Name) (col_name Name))
         = col_width [carl] Name
      /\ (col_width [carl] Name = String.length (col_name Name)
          \/ exists r', r' ∈ [carl]
                        /\ col_width [carl] Name = String.length (name r'))).
Proof.
  assert (H1 : carl ∈ [carl]) by (by left).
  exact (conj H1 (name_cells_have_the_column_width [carl] carl empty_world H1)).
Defined.


(** ** The widths of the payout table *)

(** X19: in a department block the width of a column is the greatest of
    the length of the column name and the lengths of the texts measured
    for the block's records: the [.0f] text of a float, the name as it
    is. The header cell and the dash cell have exactly that width; a data
    cell is the printed value followed by the blanks that are missing up
    to the width, none when the value is longer. The block prints the
    department, the header row, the dash row and the rows of the records
    with these widths. *)
Theorem payout_column_width_is_max_of_formatted_lengths
    (dept : string) (recs : list rec) (col : column) :
  let w := col_width recs col in
  (String.length (col_name col) <= w)%nat
  /\ (forall r, r ∈ recs -> (String.length (width_text (getcol r col)) <= w)%nat)
  /\ (w = String.length (col_name col)
      \/ exists r, r ∈ recs /\ w = String.length (width_text (getcol r col)))
  /\ (forall r,
        width_text (getcol r col) =
          match col with
          | Name => name r
          | Hours => PyFloat.format_f 0 (hours r)
          | Rate => PyFloat.format_f 0 (rate r)
          | Payout => PyFloat.format_f 0 (payout r)
          end)
  /\ String.length (PyStr.ljust w (col_name col)) = w
  /\ String.length (PyStr.replicate_char w "-") = w
  /\ (forall r v w0,
        cell_value r col w0 = (w0, inr v) ->
        PyStr.ljust w v = v +:+ PyStr.replicate_char (w - String.length v) " "
        /\ String.length (PyStr.ljust w v) = Nat.max w (String.length v))
  /\ (forall w0,
        recs ≠ [] ->
        payout_block (dept, recs) w0 =
          (emit (map Text (printed
                   (inr (NL +:+ dept)
                    :: inr (header_text (col_width recs))
                    :: inr (dash_text (col_width recs))
                    :: map (row_text (col_width recs)) recs))) w0,
           outcome (map (row_text (col_width recs)) recs))).
Proof.
  cbv zeta.
  destruct (col_width_loop (fun r => String.length (width_text (getcol r col)))
              recs (String.length (col_name col))) as (Hname & Hall & Hmax).
  fold (col_width recs col) in Hname, Hall, Hmax.
  split; [done|]. split; [done|]. split; [done|].
  split; [by destruct col|].
  split; [rewrite length_ljust; lia|].
  split; [apply length_replicate_char|].
  split.
  - intros r v w0 _. split; [apply ljust_prefix|apply length_ljust].
  - intros w0 Hrecs. rewrite payout_block_run. unfold block_actions.
    cbn [fst snd]. by destruct recs.
Qed.
